(** * DNCommerce: the sale-registration route of [src/server.js]

    A shallow embedding of the Sequelize models declared in [server.js]
    (Cliente, Produto, Venda and the pivot table ItemVenda) and of the
    handler of [POST /vendas], followed by the properties of that handler;
    then of the routes that create and list products and customers and of
    the listing of sales, with the properties of the routes together.

    Conventions of the embedding.
    - The SQLite database is an explicit value [DB] threaded through the
      handler; each awaited Sequelize call is a function on [DB], and the
      calls of one request run without interleaving with another request.
    - Columns declared [DataTypes.FLOAT] and the accumulator [totalVenda]
      are JavaScript numbers, that is IEEE 754 binary64 values: they are
      primitive floats here, with the primitive addition and product.
    - Columns declared [DataTypes.INTEGER], primary keys and the
      [quantidade] of a request item are integers ([Z]), and the handler
      compares and subtracts them as integers. The numbers of the code do
      so exactly as long as the integers stay within 2^53 in absolute
      value; the statements that give the value of a stock, or that depend
      on it, assume that bound ([exato]).
    - The body of a request has the shape that the comment of the handler
      documents: [ClienteId], and [itens] as an array of objects with an
      integer [ProdutoId] and an integer [quantidade]. Either field of the
      body may be absent, which is [None].
    - The handler looks up products and nothing else; the customer of a
      sale is checked by the database, through the foreign key that
      [Venda.belongsTo(Cliente)] puts on [Vendas.ClienteId]. The handler
      as a whole is [app_post_vendas]: that check, then [post_vendas],
      which is the handler from the created sale row on.
    - The routes that create rows check what the models declare for their
      columns: [allowNull: false] and [unique: true].
    - Timestamps ([createdAt], [updatedAt], [data_venda]) play no role in
      the handler and are left out of the rows. *)

From Stdlib Require Import ZArith Lia PrimFloat.
From Stdlib Require FloatOps SpecFloat.
From stdpp Require Import gmap strings list.

Open Scope Z_scope.

(** ** JavaScript numbers *)

Abbreviation num := PrimFloat.float.

(** The number for an integer: the binary64 value nearest to it, ties to
    even, infinite beyond the range of the format. It is the integer itself
    for every integer that a number holds, those of at most 2^53 in absolute
    value among them. *)
Definition num_of_Z (z : Z) : num :=
  FloatOps.SF2Prim (SpecFloat.binary_normalize FloatOps.prec FloatOps.emax z 0 false).

(** ** The models (section 2 of [server.js]) *)

Record Cliente := mkCliente {
  cliente_nome : string;
  email : string;
  cpf : string
}.

Record Produto := mkProduto {
  nome : string;
  descricao : option string;
  preco : num;
  estoque : Z
}.

Record Venda := mkVenda {
  venda_ClienteId : option Z;
  total : num
}.

(** A row of the pivot table of [Venda.belongsToMany(Produto, { through:
    ItemVenda })]: the two foreign keys and the two declared columns. *)
Record ItemVenda := mkItemVenda {
  VendaId : Z;
  ProdutoId : Z;
  quantidade : Z;
  preco_unitario : num
}.

(** The database: one table per model, keyed by [id], the pivot table as
    its list of rows in insertion order, and the counter behind the
    auto-incremented [id] of [Venda]. *)
Record DB := mkDB {
  Clientes : gmap Z Cliente;
  Produtos : gmap Z Produto;
  Vendas : gmap Z Venda;
  ItemVendas : list ItemVenda;
  Vendas_seq : Z
}.

(** ** The request and the response of [POST /vendas] *)

Record Item := mkItem {
  item_ProdutoId : Z;
  item_quantidade : Z
}.

(** [req.body]: [None] stands for a field that the body does not have. *)
Record Request := mkRequest {
  ClienteId : option Z;
  itens : option (list Item)
}.

(** An element of [vendaCompleta.Produtos]: the product joined with the
    [quantidade] and [preco_unitario] of its pivot row. *)
Record ProdutoDaVenda := mkProdutoDaVenda {
  pv_id : Z;
  pv_produto : Produto;
  pv_quantidade : Z;
  pv_preco_unitario : num
}.

Record VendaCompleta := mkVendaCompleta {
  vc_id : Z;
  vc_ClienteId : option Z;
  vc_total : num;
  vc_Cliente : option Cliente;
  vc_Produtos : list ProdutoDaVenda
}.

Inductive Body :=
  | JsonError (error : string)
  | JsonVenda (venda : option VendaCompleta).

Record Response := mkResponse {
  status : Z;
  body : Body
}.

(** ** The Sequelize calls of the handler *)

(** [Venda.create({ ClienteId })], for a row that the database accepts: a
    new row with the next [id] and the default [total] of the model, [0.0].
    The database refuses the row, and [create] throws, when the foreign key
    of [ClienteId] does not hold: that is [fk_ClienteId] below, which
    [app_post_vendas] checks before it gets here. *)
Definition Venda_create (cid : option Z) (db : DB) : Z * DB :=
  let id := Vendas_seq db + 1 in
  (id, mkDB (Clientes db) (Produtos db)
            (<[id := mkVenda cid 0%float]> (Vendas db))
            (ItemVendas db) id).

(** [Produto.findByPk(id)] *)
Definition Produto_findByPk (id : Z) (db : DB) : option Produto :=
  Produtos db !! id.

(** The rows of the pivot table for one pair (sale, product). *)
Definition do_par (vid pid : Z) (r : ItemVenda) : Prop :=
  VendaId r = vid ∧ ProdutoId r = pid.

#[global] Instance do_par_dec vid pid r : Decision (do_par vid pid r).
Proof. unfold do_par. apply _. Defined.

(** What [add] does to the pivot table. The table of a [belongsToMany]
    association has the pair (VendaId, ProdutoId) as its key; [add] first
    reads the rows of that pair: with none it inserts the row, otherwise it
    updates the [through] columns of the rows it found. *)
Definition upsert (row : ItemVenda) (rows : list ItemVenda) : list ItemVenda :=
  match filter (do_par (VendaId row) (ProdutoId row)) rows with
  | [] => rows ++ [row]
  | _ :: _ =>
    map (fun r => if decide (do_par (VendaId row) (ProdutoId row) r) then row else r) rows
  end.

(** [venda.addProduto(produto, { through: { quantidade, preco_unitario } })] *)
Definition addProduto (vid pid : Z) (q : Z) (pu : num) (db : DB) : DB :=
  mkDB (Clientes db) (Produtos db) (Vendas db)
       (upsert (mkItemVenda vid pid q pu) (ItemVendas db)) (Vendas_seq db).

(** [produto.update({ estoque })], on the row whose [id] is [pid]. *)
Definition Produto_update (pid : Z) (e : Z) (db : DB) : DB :=
  mkDB (Clientes db)
       (alter (fun p => mkProduto (nome p) (descricao p) (preco p) e) pid (Produtos db))
       (Vendas db) (ItemVendas db) (Vendas_seq db).

(** [venda.update({ total })] *)
Definition Venda_update (vid : Z) (t : num) (db : DB) : DB :=
  mkDB (Clientes db) (Produtos db)
       (alter (fun v => mkVenda (venda_ClienteId v) t) vid (Vendas db))
       (ItemVendas db) (Vendas_seq db).

(** The rows of a sale among rows of the pivot table, and their products. *)
Definition da_venda (vid : Z) (rows : list ItemVenda) : list ItemVenda :=
  filter (fun r => VendaId r = vid) rows.

Definition pids (vid : Z) (rows : list ItemVenda) : list Z :=
  map ProdutoId (da_venda vid rows).

(** The line items of a sale: its rows in the pivot table. *)
Definition itens_da_venda (vid : Z) (db : DB) : list ItemVenda :=
  da_venda vid (ItemVendas db).

(** [Venda.findByPk(id, { include: [Cliente, Produto through ItemVenda] })] *)
Definition Venda_findByPk (vid : Z) (db : DB) : option VendaCompleta :=
  match Vendas db !! vid with
  | None => None
  | Some v =>
    Some (mkVendaCompleta vid (venda_ClienteId v) (total v)
            (match venda_ClienteId v with
             | Some c => Clientes db !! c
             | None => None
             end)
            (omap (fun r =>
                     match Produtos db !! ProdutoId r with
                     | Some p => Some (mkProdutoDaVenda (ProdutoId r) p
                                         (quantidade r) (preco_unitario r))
                     | None => None
                     end)
                  (itens_da_venda vid db)))
  end.

(** ** The handler *)

Definition msg_nao_encontrado : string := "Produto não encontrado".
Definition msg_estoque (p : Produto) : string :=
  String.append "Estoque insuficiente para " (nome p).
Definition msg_erro : string := "Erro ao processar venda".

(** How the [for] loop ends: by one of its [return res.status(..)], or by
    running out of items with the accumulated [totalVenda]. *)
Inductive Loop :=
  | Return (r : Response)
  | Completed (totalVenda : num).

(** The body of the loop for an item that passed both checks: the pivot
    row, then the stock. The difference is the one the code computes as
    long as the stock and the quantity, and the difference itself, are
    within 2^53 in absolute value (see [exato]). *)
Definition registra_item (vid : Z) (item : Item) (produto : Produto) (db : DB) : DB :=
  Produto_update (item_ProdutoId item) (estoque produto - item_quantidade item)
    (addProduto vid (item_ProdutoId item) (item_quantidade item) (preco produto) db).

Fixpoint for_itens (vid : Z) (its : list Item) (totalVenda : num) (db : DB)
  : Loop * DB :=
  match its with
  | [] => (Completed totalVenda, db)
  | item :: rest =>
    match Produto_findByPk (item_ProdutoId item) db with
    | None => (Return (mkResponse 404 (JsonError msg_nao_encontrado)), db)
    | Some produto =>
      if estoque produto <? item_quantidade item
      then (Return (mkResponse 400 (JsonError (msg_estoque produto))), db)
      else for_itens vid rest
             (totalVenda + preco produto * num_of_Z (item_quantidade item))%float
             (registra_item vid item produto db)
    end
  end.

(** [app.post('/vendas', ...)] from the created sale row on: what the
    handler does when [Venda.create] has not thrown. A body without [itens]
    makes the [for ... of] throw, which the [catch] turns into the 500
    answer; the sale row of step 1 has been created by then. *)
Definition post_vendas (req : Request) (db : DB) : Response * DB :=
  let '(vid, db1) := Venda_create (ClienteId req) db in
  match itens req with
  | None => (mkResponse 500 (JsonError msg_erro), db1)
  | Some its =>
    match for_itens vid its 0%float db1 with
    | (Return r, db2) => (r, db2)
    | (Completed totalVenda, db2) =>
      let db3 := Venda_update vid totalVenda db2 in
      (mkResponse 201 (JsonVenda (Venda_findByPk vid db3)), db3)
    end
  end.

(** The foreign key of [Vendas.ClienteId], which SQLite enforces for
    Sequelize: a sale row is accepted when it has no customer id or the id
    of a stored customer. *)
Definition fk_ClienteId (cid : option Z) (db : DB) : bool :=
  match cid with
  | None => true
  | Some c => bool_decide (is_Some (Clientes db !! c))
  end.

(** [app.post('/vendas', ...)], whole. When the foreign key refuses the
    sale row, [Venda.create] throws before anything is written and the
    [catch] answers 500; otherwise the handler goes on from the created
    row. *)
Definition app_post_vendas (req : Request) (db : DB) : Response * DB :=
  if fk_ClienteId (ClienteId req) db
  then post_vendas req db
  else (mkResponse 500 (JsonError msg_erro), db).

(** ** Derived notions used by the statements *)

(** The sum of [preco_unitario * quantidade] over rows, accumulated from
    [0] in the order of the rows, with the arithmetic of the handler. *)
Definition soma_itens (rows : list ItemVenda) : num :=
  foldl (fun acc r => (acc + preco_unitario r * num_of_Z (quantidade r))%float)
        0%float rows.

(** The products that a list of items names, in order. *)
Definition ids (its : list Item) : list Z := map item_ProdutoId its.

(** The [id] that [Venda.create] gives to the next sale. *)
Definition proxima_venda (db : DB) : Z := Vendas_seq db + 1.

(** The answer with which the loop stops at an item, if it stops there:
    the two checks of the loop body, read on the database the loop has
    reached. *)
Definition recusa (item : Item) (db : DB) : option Response :=
  match Produto_findByPk (item_ProdutoId item) db with
  | None => Some (mkResponse 404 (JsonError msg_nao_encontrado))
  | Some produto =>
    if estoque produto <? item_quantidade item
    then Some (mkResponse 400 (JsonError (msg_estoque produto)))
    else None
  end.

(** What the AUTOINCREMENT counter guarantees: no sale and no pivot row
    carries an [id] beyond the counter. *)
Definition db_ok (db : DB) : bool :=
  bool_decide (map_Forall (fun id _ => id ≤ Vendas_seq db) (Vendas db)) &&
  forallb (fun r => bool_decide (VendaId r ≤ Vendas_seq db)) (ItemVendas db).

(** No product has a negative stock. *)
Definition estoque_ok (db : DB) : Prop :=
  map_Forall (fun _ p => 0 ≤ estoque p) (Produtos db).

#[global] Instance estoque_ok_dec db : Decision (estoque_ok db).
Proof. unfold estoque_ok. apply _. Defined.

(** The server answering a sequence of requests: each answer with the
    database it leaves. *)
Fixpoint atende (reqs : list Request) (db : DB) : list (Response * DB) :=
  match reqs with
  | [] => []
  | req :: reqs' =>
    let r := post_vendas req db in r :: atende reqs' (snd r)
  end.

(** The total quantity that the items of a list ask of a product. *)
Definition pedido (pid : Z) (its : list Item) : Z :=
  foldr (fun item acc => if decide (item_ProdutoId item = pid)
                         then item_quantidade item + acc else acc) 0 its.

(** A product with its stock lowered by [q]. *)
Definition baixa (q : Z) (p : Produto) : Produto :=
  mkProduto (nome p) (descricao p) (preco p) (estoque p - q).

(** The pivot row that the loop writes for an item, the price being the
    one the product has in [db]. *)
Definition linha (vid : Z) (db : DB) (item : Item) : option ItemVenda :=
  match Produtos db !! item_ProdutoId item with
  | Some p => Some (mkItemVenda vid (item_ProdutoId item) (item_quantidade item) (preco p))
  | None => None
  end.

(** What relates an item of the request and the pivot row written for it:
    same product, same quantity, and the price that the product has. *)
Definition linha_de (vid : Z) (db : DB) (item : Item) (r : ItemVenda) : Prop :=
  ∃ p, Produtos db !! item_ProdutoId item = Some p ∧
       r = mkItemVenda vid (item_ProdutoId item) (item_quantidade item) (preco p).

(** ** The scenarios of the specification *)

Definition P1 : Produto := mkProduto "P1" None 10%float 5.
Definition P2 : Produto := mkProduto "P2" None 20%float 2.
Definition cliente1 : Cliente := mkCliente "C1" "c1@dncommerce" "000".

Definition db0 : DB :=
  mkDB (<[1 := cliente1]> ∅) (<[1 := P1]> (<[2 := P2]> ∅)) ∅ [] 0.

(** Two P1 and one P2 for customer 1. *)
Definition pedido_P1_P2 : Request :=
  mkRequest (Some 1) (Some [mkItem 1 2; mkItem 2 1]).

(** Two P1, then one more P1, for customer 1. *)
Definition pedido_P1_P1 : Request :=
  mkRequest (Some 1) (Some [mkItem 1 2; mkItem 1 1]).

(** A request of customer 1 for a single item. *)
Definition pedido_de (pid q : Z) : Request :=
  mkRequest (Some 1) (Some [mkItem pid q]).

(** Product A in stock, product B out of stock. *)
Definition db_AB : DB :=
  mkDB (<[1 := cliente1]> ∅)
       (<[1 := mkProduto "A" None 5%float 4]> (<[2 := mkProduto "B" None 7%float 0]> ∅))
       ∅ [] 0.

(** ** The listing of sales *)

Section Listagem.

(** The order in which a query returns the products nested in a sale is
    the database's, and [findAll] need not give the order of [findByPk]:
    the order is a parameter, of which the statements assume only that it
    permutes the products. *)
Variable ordem : DB → Z → list ProdutoDaVenda → list ProdutoDaVenda.

Definition reordenada (db : DB) (v : VendaCompleta) : VendaCompleta :=
  mkVendaCompleta (vc_id v) (vc_ClienteId v) (vc_total v) (vc_Cliente v)
                  (ordem db (vc_id v) (vc_Produtos v)).

(** [Venda.findAll({ include: [Cliente, Produto] })], the query of
    [GET /vendas]: every sale with its customer and its products. The
    order of the sales is the database's too; the statements speak of
    membership only. *)
Definition Venda_findAll (db : DB) : list VendaCompleta :=
  omap (fun kv => reordenada db <$> Venda_findByPk (fst kv) db)
       (map_to_list (Vendas db)).

(** [app.get('/vendas', ...)]: [res.json(vendas)], with the default status. *)
Definition get_vendas (db : DB) : Z * list VendaCompleta :=
  (200, Venda_findAll db).

End Listagem.

(** ** Further derived notions *)

(** What the items of a request ask of the stock, read on the products the
    request finds: each item names an existing product, and its quantity,
    added to what the items before it ask of the same product, does not
    exceed the stock of the product. *)
Definition atendivel (produtos : gmap Z Produto) (its : list Item) : Prop :=
  ∀ pre item post,
    its = pre ++ item :: post →
    ∃ p, produtos !! item_ProdutoId item = Some p ∧
         pedido (item_ProdutoId item) pre + item_quantidade item ≤ estoque p.

(** Every row of the pivot table refers to a sale and to a product that
    exist. *)
Definition refs_ok (db : DB) : Prop :=
  ∀ r, r ∈ ItemVendas db →
       is_Some (Vendas db !! VendaId r) ∧ is_Some (Produtos db !! ProdutoId r).

(** The pivot table has at most one row per pair (sale, product). *)
Definition pivo_ok (db : DB) : Prop :=
  NoDup (map (fun r => (VendaId r, ProdutoId r)) (ItemVendas db)).

(** ** The routes of products and customers *)

(** The bodies of [POST /produtos] and [POST /clientes]: the columns of the
    model, each of which the body may lack. *)
Record ProdutoBody := mkProdutoBody {
  body_nome : option string;
  body_descricao : option string;
  body_preco : option num;
  body_estoque : option Z
}.

Record ClienteBody := mkClienteBody {
  body_cliente_nome : option string;
  body_email : option string;
  body_cpf : option string
}.

(** What [create] throws for these models: columns declared
    [allowNull: false] that have no value, or the [unique] column whose
    value is taken. *)
Inductive CreateError :=
  | NotNullViolation (colunas : list string)
  | UniqueViolation (coluna : string).

(** The body of the answer of a [POST] of these routes: the created row
    with its [id], or [{ error: error.message }]. The text of the message is
    Sequelize's; the payload is kept as the error it is the message of. *)
Inductive CreateBody (A : Type) :=
  | JsonCriado (id : Z) (row : A)
  | JsonErro (error : CreateError).
Arguments JsonCriado {A} id row.
Arguments JsonErro {A} error.

(** The server: the database of the sale route, and the counters behind
    the auto-incremented [id] of [Produto] and of [Cliente]. *)
Record Servidor := mkServidor {
  banco : DB;
  Produtos_seq : Z;
  Clientes_seq : Z
}.

(** The names of the columns, among the given ones, that have no value. *)
Definition sem_valor (colunas : list (string * bool)) : list string :=
  map fst (filter (fun c => snd c = false) colunas).

(** [Produto.create(req.body)]: the validation of [allowNull: false] on
    [nome] and [preco], then the insertion of the row under the next [id],
    with the [defaultValue] of [estoque] when the body has none. A [create]
    that throws writes nothing. *)
Definition Produto_create (b : ProdutoBody) (s : Servidor)
  : (CreateError + Z * Produto) * Servidor :=
  match body_nome b, body_preco b with
  | Some n, Some pr =>
    let id := Produtos_seq s + 1 in
    let p := mkProduto n (body_descricao b) pr (default 0 (body_estoque b)) in
    (inr (id, p),
     mkServidor (mkDB (Clientes (banco s)) (<[id := p]> (Produtos (banco s)))
                      (Vendas (banco s)) (ItemVendas (banco s)) (Vendas_seq (banco s)))
                id (Clientes_seq s))
  | _, _ =>
    (inl (NotNullViolation
            (sem_valor [("nome", bool_decide (is_Some (body_nome b)));
                        ("preco", bool_decide (is_Some (body_preco b)))])), s)
  end.

(** The [email] is taken when a customer of the table has it. *)
Definition email_em_uso (e : string) (db : DB) : Prop :=
  map_Exists (fun _ c => email c = e) (Clientes db).

#[global] Instance email_em_uso_dec e db : Decision (email_em_uso e db).
Proof. unfold email_em_uso. apply _. Defined.

(** [Cliente.create(req.body)]: the validation of [allowNull: false] on the
    three columns, then the insertion, which the [unique] constraint of
    [email] refuses when the email is taken. *)
Definition Cliente_create (b : ClienteBody) (s : Servidor)
  : (CreateError + Z * Cliente) * Servidor :=
  match body_cliente_nome b, body_email b, body_cpf b with
  | Some n, Some e, Some c =>
    if decide (email_em_uso e (banco s))
    then (inl (UniqueViolation "email"), s)
    else
      let id := Clientes_seq s + 1 in
      let cli := mkCliente n e c in
      (inr (id, cli),
       mkServidor (mkDB (<[id := cli]> (Clientes (banco s))) (Produtos (banco s))
                        (Vendas (banco s)) (ItemVendas (banco s)) (Vendas_seq (banco s)))
                  (Produtos_seq s) id)
  | _, _, _ =>
    (inl (NotNullViolation
            (sem_valor [("nome", bool_decide (is_Some (body_cliente_nome b)));
                        ("email", bool_decide (is_Some (body_email b)));
                        ("cpf", bool_decide (is_Some (body_cpf b)))])), s)
  end.

(** [app.post('/produtos', ...)] and [app.post('/clientes', ...)]: 201 with
    the created row, or 400 with the message of what [create] threw. *)
Definition post_produtos (b : ProdutoBody) (s : Servidor)
  : (Z * CreateBody Produto) * Servidor :=
  match Produto_create b s with
  | (inr (id, produto), s') => ((201, JsonCriado id produto), s')
  | (inl error, s') => ((400, JsonErro error), s')
  end.

Definition post_clientes (b : ClienteBody) (s : Servidor)
  : (Z * CreateBody Cliente) * Servidor :=
  match Cliente_create b s with
  | (inr (id, cliente), s') => ((201, JsonCriado id cliente), s')
  | (inl error, s') => ((400, JsonErro error), s')
  end.

(** [app.get('/produtos', ...)] and [app.get('/clientes', ...)]:
    [findAll()], every row with its [id], under the default status. *)
Definition get_produtos (s : Servidor) : Z * list (Z * Produto) :=
  (200, map_to_list (Produtos (banco s))).

Definition get_clientes (s : Servidor) : Z * list (Z * Cliente) :=
  (200, map_to_list (Clientes (banco s))).

(** The requests that change the state, and the state after one of them
    and after a list of them. *)
Inductive Pedido :=
  | POST_produtos (b : ProdutoBody)
  | POST_clientes (b : ClienteBody)
  | POST_vendas (req : Request).

Definition passo (s : Servidor) (r : Pedido) : Servidor :=
  match r with
  | POST_produtos b => snd (post_produtos b s)
  | POST_clientes b => snd (post_clientes b s)
  | POST_vendas req =>
    mkServidor (snd (post_vendas req (banco s))) (Produtos_seq s) (Clientes_seq s)
  end.

(** The server on a new database file. *)
Definition servidor_novo : Servidor := mkServidor (mkDB ∅ ∅ ∅ [] 0) 0 0.

(** What the server keeps whatever the requests: no id is beyond its
    counter, no two customers have the same email, every row of the pivot
    table refers to a sale and a product that exist, and no two rows of the
    pivot table have the same pair. *)
Definition emails_ok (db : DB) : Prop :=
  ∀ i j ci cj, Clientes db !! i = Some ci → Clientes db !! j = Some cj →
               email ci = email cj → i = j.

Definition seqs_ok (s : Servidor) : Prop :=
  db_ok (banco s) = true ∧
  (∀ k, is_Some (Produtos (banco s) !! k) → k ≤ Produtos_seq s) ∧
  (∀ k, is_Some (Clientes (banco s) !! k) → k ≤ Clientes_seq s).

Definition servidor_ok (s : Servidor) : Prop :=
  seqs_ok s ∧ emails_ok (banco s) ∧ refs_ok (banco s) ∧ pivo_ok (banco s).


(** The database after the server has answered the requests of a list. *)
Definition banco_apos (reqs : list Request) (db : DB) : DB :=
  foldl (fun d req => snd (post_vendas req d)) db reqs.



(** The quantities that the items of a list ask of a product, in absolute
    value and all together; and the same for the requests of a list. *)
Definition volume (pid : Z) (its : list Item) : Z :=
  foldr (fun item acc => if decide (item_ProdutoId item = pid)
                         then Z.abs (item_quantidade item) + acc else acc) 0 its.

Definition volume_total (pid : Z) (reqs : list Request) : Z :=
  foldr (fun req acc => volume pid (default [] (itens req)) + acc) 0 reqs.

(** The bound within which the integers of the embedding are the numbers of
    the code: for every product, the stock and all that the items ask of
    it stay within 2^53 in absolute value. Every stock that the loop then
    reads, compares or writes for these items is an integer that a
    JavaScript number holds, and every difference it computes is exact. *)
Definition exato (db : DB) (its : list Item) : Prop :=
  map_Forall (fun k p => Z.abs (estoque p) + volume k its ≤ 2 ^ 53) (Produtos db).

#[global] Instance exato_dec db its : Decision (exato db its).
Proof. unfold exato. apply _. Defined.

Definition exato_total (db : DB) (reqs : list Request) : Prop :=
  map_Forall (fun k p => Z.abs (estoque p) + volume_total k reqs ≤ 2 ^ 53)
             (Produtos db).

#[global] Instance exato_total_dec db reqs : Decision (exato_total db reqs).
Proof. unfold exato_total. apply _. Defined.

(** An entry of [vendaCompleta.Produtos] for a row of the pivot table. *)
Definition entrada_de (db : DB) (r : ItemVenda) (pv : ProdutoDaVenda) : Prop :=
  pv_id pv = ProdutoId r ∧ pv_quantidade pv = quantidade r ∧
  pv_preco_unitario pv = preco_unitario r ∧
  Produtos db !! ProdutoId r = Some (pv_produto pv).

(** * Properties *)

(** ** The loop *)

Lemma baixa_0 p : baixa 0 p = p.
Proof. destruct p; unfold baixa; simpl; f_equal; lia. Qed.

Lemma baixa_baixa q1 q2 p : baixa q2 (baixa q1 p) = baixa (q1 + q2) p.
Proof. unfold baixa; simpl; f_equal; lia. Qed.

Lemma for_itens_passa vid item rest t db :
  recusa item db = None →
  ∃ p, Produtos db !! item_ProdutoId item = Some p ∧
       item_quantidade item ≤ estoque p ∧
       for_itens vid (item :: rest) t db =
       for_itens vid rest (t + preco p * num_of_Z (item_quantidade item))%float
                 (registra_item vid item p db).
Proof.
  unfold recusa, Produto_findByPk; simpl; unfold Produto_findByPk.
  destruct (Produtos db !! item_ProdutoId item) as [p|]; [|discriminate].
  destruct (Z.ltb_spec (estoque p) (item_quantidade item)); [discriminate|].
  intros _. exists p. auto.
Qed.

Lemma for_itens_recusa vid item rest t db r :
  recusa item db = Some r →
  for_itens vid (item :: rest) t db = (Return r, db).
Proof.
  unfold recusa; simpl.
  destruct (Produto_findByPk (item_ProdutoId item) db) as [p|].
  - destruct (estoque p <? item_quantidade item); [|discriminate].
    intros [= <-]; reflexivity.
  - intros [= <-]; reflexivity.
Qed.

Lemma for_itens_app vid pre rest t db :
  for_itens vid (pre ++ rest) t db =
  match for_itens vid pre t db with
  | (Completed t', db') => for_itens vid rest t' db'
  | (Return r, db') => (Return r, db')
  end.
Proof.
  revert t db. induction pre as [|item pre IH]; intros t db; [reflexivity|].
  simpl. destruct (Produto_findByPk (item_ProdutoId item) db) as [p|]; [|reflexivity].
  destruct (estoque p <? item_quantidade item); [reflexivity|]. apply IH.
Qed.

(** A loop that returns early stopped at some item, after the loop body ran
    to its end for every item before it. *)
Lemma for_itens_Return vid its t db r db' :
  for_itens vid its t db = (Return r, db') →
  ∃ pre item post t',
    its = pre ++ item :: post ∧
    for_itens vid pre t db = (Completed t', db') ∧
    recusa item db' = Some r.
Proof.
  revert t db. induction its as [|item its IH]; intros t db H; [discriminate|].
  destruct (recusa item db) as [r0|] eqn:Hr.
  - rewrite (for_itens_recusa _ _ _ _ _ _ Hr) in H. injection H as <- <-.
    exists [], item, its, t. auto.
  - destruct (for_itens_passa vid item its t db Hr) as (p & Hp & Hq & Heq).
    rewrite Heq in H. destruct (IH _ _ H) as (pre & bad & post & t' & -> & Hpre & Hbad).
    exists (item :: pre), bad, post, t'. split; [reflexivity|]. split; [|exact Hbad].
    change (item :: pre) with ([item] ++ pre). rewrite for_itens_app.
    destruct (for_itens_passa vid item [] t db Hr) as (p' & Hp' & _ & Heq').
    rewrite Heq'. simpl. congruence.
Qed.

(** ** What the loop body writes *)

Lemma mapM_Some_cons {A B} (f : A → option B) x l y k :
  f x = Some y → mapM f l = Some k → mapM f (x :: l) = Some (y :: k).
Proof. intros H1 H2. simpl. rewrite H1. simpl. rewrite H2. reflexivity. Qed.

Lemma registra_item_Produtos vid item p db k :
  Produtos db !! item_ProdutoId item = Some p →
  Produtos (registra_item vid item p db) !! k =
  if decide (item_ProdutoId item = k)
  then Some (baixa (item_quantidade item) p)
  else Produtos db !! k.
Proof.
  intros Hp. unfold registra_item, Produto_update, addProduto; simpl.
  rewrite lookup_alter. destruct (decide (item_ProdutoId item = k)) as [<-|]; [|reflexivity].
  rewrite Hp. reflexivity.
Qed.

Lemma registra_item_ItemVendas vid item p db :
  ItemVendas (registra_item vid item p db) =
  upsert (mkItemVenda vid (item_ProdutoId item) (item_quantidade item) (preco p))
         (ItemVendas db).
Proof. reflexivity. Qed.

Lemma registra_item_linha vid vid' item p db it :
  Produtos db !! item_ProdutoId item = Some p →
  linha vid' (registra_item vid item p db) it = linha vid' db it.
Proof.
  intros Hp. unfold linha. rewrite (registra_item_Produtos _ _ _ _ _ Hp).
  destruct (decide (item_ProdutoId item = item_ProdutoId it)) as [e|]; [|reflexivity].
  rewrite <- e, Hp. reflexivity.
Qed.

(** A loop that runs to its end leaves the customers, the sales and the
    counter as they were; every product has lost what the items asked of
    it; the pivot table has received, in order, one [add] per item, with
    the price the product had; and [totalVenda] has accumulated, in the
    same order, price times quantity of those rows. *)
Lemma for_itens_Completed vid its t db t' db' :
  for_itens vid its t db = (Completed t', db') →
  Clientes db' = Clientes db ∧ Vendas db' = Vendas db ∧
  Vendas_seq db' = Vendas_seq db ∧
  (∀ k, Produtos db' !! k = baixa (pedido k its) <$> Produtos db !! k) ∧
  ∃ rows,
    mapM (linha vid db) its = Some rows ∧
    ItemVendas db' = foldl (fun acc r => upsert r acc) (ItemVendas db) rows ∧
    t' = foldl (fun acc r => (acc + preco_unitario r * num_of_Z (quantidade r))%float)
               t rows.
Proof.
  revert t db. induction its as [|item its IH]; intros t db H.
  - injection H as <- <-. repeat split; try reflexivity.
    + intros k. simpl. destruct (Produtos db !! k) as [p|]; simpl; [|reflexivity].
      by rewrite baixa_0.
    + exists []. auto.
  - destruct (recusa item db) as [r0|] eqn:Hr.
    { rewrite (for_itens_recusa _ _ _ _ _ _ Hr) in H. discriminate. }
    destruct (for_itens_passa vid item its t db Hr) as (p & Hp & Hq & Heq).
    rewrite Heq in H. destruct (IH _ _ H) as (Hc & Hv & Hs & Hprod & rows & Hrows & Hiv & Ht).
    split; [by rewrite Hc|]. split; [by rewrite Hv|]. split; [by rewrite Hs|]. split.
    + intros k. rewrite Hprod, (registra_item_Produtos _ _ _ _ _ Hp).
      unfold pedido; cbn [foldr]; fold (pedido k its).
      destruct (decide (item_ProdutoId item = k)) as [<-|]; [|reflexivity].
      rewrite Hp. cbn [fmap option_fmap option_map]. rewrite baixa_baixa. reflexivity.
    + exists (mkItemVenda vid (item_ProdutoId item) (item_quantidade item) (preco p) :: rows).
      split; [|split].
      * apply mapM_Some_cons; [unfold linha; by rewrite Hp|].
        rewrite <- Hrows. apply mapM_ext. intros it. symmetry.
        by apply registra_item_linha.
      * rewrite Hiv. reflexivity.
      * rewrite Ht. reflexivity.
Qed.

(** ** The pivot table under [add] *)

Section Pivot.
Implicit Types (row r : ItemVenda) (rows acc : list ItemVenda) (vid v pid : Z).

Lemma upsert_novo row rows :
  (∀ r, r ∈ rows → ¬ do_par (VendaId row) (ProdutoId row) r) →
  upsert row rows = rows ++ [row].
Proof.
  intros H. unfold upsert.
  destruct (filter _ rows) as [|r0 l] eqn:E; [reflexivity|].
  exfalso. assert (Hin : r0 ∈ filter (do_par (VendaId row) (ProdutoId row)) rows)
    by (rewrite E; left).
  apply list_elem_of_filter in Hin as [Hp Hin]. exact (H _ Hin Hp).
Qed.

Lemma upsert_achado row rows r0 :
  r0 ∈ rows → do_par (VendaId row) (ProdutoId row) r0 →
  upsert row rows =
  map (fun r => if decide (do_par (VendaId row) (ProdutoId row) r) then row else r) rows.
Proof.
  intros Hin Hp. unfold upsert.
  destruct (filter _ rows) as [|r1 l] eqn:E; [|reflexivity].
  exfalso. eapply (filter_nil_not_elem_of _ _ _ E); eassumption.
Qed.

(** Replacing rows of a pair by a row of the same pair moves no row from
    one sale to another and changes no product id. *)
Lemma da_venda_map_par row rows v :
  map ProdutoId
    (da_venda v (map (fun r => if decide (do_par (VendaId row) (ProdutoId row) r)
                               then row else r) rows)) =
  map ProdutoId (da_venda v rows).
Proof.
  unfold da_venda. induction rows as [|r rows IH]; [reflexivity|].
  cbn [map]. rewrite !filter_cons.
  destruct (decide (do_par (VendaId row) (ProdutoId row) r)) as [[Hv Hp]|_].
  - rewrite Hv. destruct (decide (VendaId row = v)); rewrite ?map_cons, IH; congruence.
  - destruct (decide (VendaId r = v)); rewrite ?map_cons, IH; reflexivity.
Qed.

Lemma upsert_outras row rows v :
  VendaId row ≠ v → da_venda v (upsert row rows) = da_venda v rows.
Proof.
  intros Hne. unfold upsert, da_venda.
  destruct (filter (do_par _ _) rows) as [|r0 l].
  - rewrite filter_app, filter_cons, filter_nil.
    rewrite decide_False by assumption. apply app_nil_r.
  - clear r0 l. induction rows as [|r rows IH]; [reflexivity|].
    cbn [map]. rewrite !filter_cons.
    destruct (decide (do_par (VendaId row) (ProdutoId row) r)) as [[Hv Hp]|_].
    + rewrite decide_False by assumption.
      rewrite decide_False by congruence. exact IH.
    + destruct (decide (VendaId r = v)); rewrite IH; reflexivity.
Qed.

Lemma elem_of_pids vid rows pid :
  pid ∈ pids vid rows ↔ ∃ r, r ∈ rows ∧ do_par vid pid r.
Proof.
  unfold pids, da_venda, do_par. rewrite list_elem_of_fmap. split.
  - intros (r & -> & Hin). apply list_elem_of_filter in Hin as [Hv Hin]. eauto.
  - intros (r & Hin & Hv & Hp). exists r. split; [auto|].
    apply list_elem_of_filter. auto.
Qed.

(** One [add]: the products recorded for the sale gain the product of the
    row, unless the sale had it already. *)
Lemma pids_upsert row rows :
  pids (VendaId row) (upsert row rows) =
  if decide (ProdutoId row ∈ pids (VendaId row) rows)
  then pids (VendaId row) rows
  else pids (VendaId row) rows ++ [ProdutoId row].
Proof.
  destruct (decide (ProdutoId row ∈ pids (VendaId row) rows)) as [Hin|Hnin].
  - apply elem_of_pids in Hin as (r0 & Hin & Hp).
    rewrite (upsert_achado _ _ _ Hin Hp). apply da_venda_map_par.
  - rewrite upsert_novo.
    + unfold pids, da_venda. rewrite filter_app, filter_cons, filter_nil.
      rewrite decide_True by reflexivity. by rewrite map_app.
    + intros r Hin Hp. apply Hnin. apply elem_of_pids. eauto.
Qed.

Lemma foldl_upsert_outras vid v news acc :
  Forall (fun r => VendaId r = vid) news → vid ≠ v →
  da_venda v (foldl (fun a r => upsert r a) acc news) = da_venda v acc.
Proof.
  intros Hall Hne. revert acc. induction Hall as [|r news Hr _ IH]; intros acc;
    [reflexivity|].
  cbn [foldl]. rewrite IH. apply upsert_outras. congruence.
Qed.

(** Rows of pairwise distinct products that the sale does not have yet are
    appended in order. *)
Lemma foldl_upsert_novos vid news acc :
  Forall (fun r => VendaId r = vid) news →
  NoDup (map ProdutoId news) →
  (∀ pid, pid ∈ pids vid acc → pid ∉ map ProdutoId news) →
  foldl (fun a r => upsert r a) acc news = acc ++ news.
Proof.
  intros Hall. revert acc. induction Hall as [|r news Hr _ IH]; intros acc Hnd Hfresh.
  - cbn [foldl]. by rewrite app_nil_r.
  - cbn [map] in Hnd, Hfresh. apply NoDup_cons in Hnd as [Hr1 Hnd].
    cbn [foldl]. rewrite upsert_novo.
    + rewrite IH; [by rewrite <- app_assoc| exact Hnd |].
      intros pid Hin Hin'. unfold pids, da_venda in Hin.
      rewrite filter_app, map_app, elem_of_app in Hin.
      destruct Hin as [Hin|Hin].
      * apply (Hfresh pid Hin). by right.
      * rewrite filter_cons, filter_nil in Hin.
        destruct (decide (VendaId r = vid)); [|by apply elem_of_nil in Hin].
        apply list_elem_of_singleton in Hin. subst pid. exact (Hr1 Hin').
    + intros r0 Hin Hp. rewrite Hr in Hp. apply (Hfresh (ProdutoId r)).
      * apply elem_of_pids. eauto.
      * by left.
Qed.

(** In general the sale ends with one row per product: the products it
    had, then the new ones, each once. *)
Lemma foldl_upsert_pids vid news acc :
  Forall (fun r => VendaId r = vid) news →
  NoDup (pids vid acc) →
  NoDup (pids vid (foldl (fun a r => upsert r a) acc news)) ∧
  ∀ pid, pid ∈ pids vid (foldl (fun a r => upsert r a) acc news) ↔
         pid ∈ pids vid acc ∨ pid ∈ map ProdutoId news.
Proof.
  intros Hall. revert acc. induction Hall as [|r news Hr _ IH]; intros acc Hnd.
  - cbn [foldl map]. split; [exact Hnd|]. intros pid. rewrite elem_of_nil. tauto.
  - cbn [foldl map].
    assert (Hup : pids vid (upsert r acc) =
                  if decide (ProdutoId r ∈ pids vid acc) then pids vid acc
                  else pids vid acc ++ [ProdutoId r])
      by (rewrite <- Hr; apply pids_upsert).
    destruct (IH (upsert r acc)) as [Hnd' Hiff].
    { rewrite Hup. destruct (decide _) as [|Hnin]; [exact Hnd|].
      apply NoDup_app. split; [exact Hnd|]. split; [|apply NoDup_singleton].
      intros x Hx Hx'. apply list_elem_of_singleton in Hx'. subst x. exact (Hnin Hx). }
    split; [exact Hnd'|]. intros pid. rewrite Hiff, Hup, elem_of_cons.
    destruct (decide _) as [Hin|Hnin].
    + split; [tauto|]. intros [H|[->|H]]; auto.
    + rewrite elem_of_app, list_elem_of_singleton. tauto.
Qed.
End Pivot.

(** ** The rows of a completed loop *)

Lemma linhas_Forall2 vid db its rows :
  mapM (linha vid db) its = Some rows → Forall2 (linha_de vid db) its rows.
Proof.
  intros H. apply mapM_Some in H. eapply Forall2_impl; [exact H|].
  intros item r. unfold linha, linha_de.
  destruct (Produtos db !! item_ProdutoId item) as [p|]; [|discriminate].
  intros [= <-]. eauto.
Qed.

Lemma linhas_VendaId vid db its rows :
  Forall2 (linha_de vid db) its rows → Forall (fun r => VendaId r = vid) rows.
Proof.
  induction 1 as [|item r its rows (p & _ & ->) _ IH]; constructor; auto.
Qed.

Lemma linhas_ProdutoId vid db its rows :
  Forall2 (linha_de vid db) its rows → map ProdutoId rows = ids its.
Proof.
  induction 1 as [|item r its rows (p & _ & ->) _ IH]; [reflexivity|].
  unfold ids in *. cbn [map]. by rewrite IH.
Qed.

(** ** The counter of sale ids *)

Lemma db_ok_Vendas db id :
  db_ok db = true → Vendas_seq db < id → Vendas db !! id = None.
Proof.
  unfold db_ok. intros H Hlt. apply andb_prop in H as [H _].
  apply bool_decide_eq_true_1 in H.
  destruct (Vendas db !! id) as [v|] eqn:E; [|reflexivity].
  apply (map_Forall_lookup_1 _ _ _ _ H) in E. lia.
Qed.

Lemma db_ok_ItemVendas db id :
  db_ok db = true → Vendas_seq db < id → itens_da_venda id db = [].
Proof.
  unfold db_ok, itens_da_venda, da_venda. intros H Hlt. apply andb_prop in H as [_ H].
  rewrite forallb_forall in H.
  destruct (filter _ (ItemVendas db)) as [|r l] eqn:E; [reflexivity|].
  assert (Hin : r ∈ filter (fun r => VendaId r = id) (ItemVendas db))
    by (rewrite E; left).
  apply list_elem_of_filter in Hin as [Hv Hin].
  apply list_elem_of_In, H, bool_decide_eq_true_1 in Hin. lia.
Qed.

Lemma elem_of_upsert row rows r :
  r ∈ upsert row rows → r ∈ rows ∨ r = row.
Proof.
  unfold upsert. destruct (filter _ rows) as [|r0 l].
  - rewrite elem_of_app, list_elem_of_singleton. tauto.
  - rewrite list_elem_of_fmap. intros (r1 & -> & Hin).
    destruct (decide _); auto.
Qed.

(** Whatever the way the loop ends, the rows it leaves are old rows or rows
    of the sale it works for, and it touches neither sales nor counter. *)
Lemma for_itens_quadro vid its t db l db' :
  for_itens vid its t db = (l, db') →
  Clientes db' = Clientes db ∧ Vendas db' = Vendas db ∧
  Vendas_seq db' = Vendas_seq db ∧
  ∀ r, r ∈ ItemVendas db' → r ∈ ItemVendas db ∨ VendaId r = vid.
Proof.
  revert t db. induction its as [|item its IH]; intros t db H.
  - injection H as <- <-. auto.
  - destruct (recusa item db) as [r0|] eqn:Hr.
    { rewrite (for_itens_recusa _ _ _ _ _ _ Hr) in H. injection H as <- <-. auto. }
    destruct (for_itens_passa vid item its t db Hr) as (p & Hp & Hq & Heq).
    rewrite Heq in H. destruct (IH _ _ H) as (Hc & Hv & Hs & Hrows).
    split; [exact Hc|]. split; [exact Hv|]. split; [exact Hs|].
    intros r Hin. destruct (Hrows r Hin) as [Hin'|Hin']; [|by right].
    rewrite registra_item_ItemVendas in Hin'.
    apply elem_of_upsert in Hin' as [Hin'| ->]; auto.
Qed.

Lemma recusa_inv item db r :
  recusa item db = Some r →
  (Produtos db !! item_ProdutoId item = None ∧
   r = mkResponse 404 (JsonError msg_nao_encontrado)) ∨
  (∃ p, Produtos db !! item_ProdutoId item = Some p ∧
        estoque p < item_quantidade item ∧
        r = mkResponse 400 (JsonError (msg_estoque p))).
Proof.
  unfold recusa, Produto_findByPk.
  destruct (Produtos db !! item_ProdutoId item) as [p|]; [|intros [= <-]; auto].
  destruct (Z.ltb_spec (estoque p) (item_quantidade item)); [|discriminate].
  intros [= <-]. right. eauto.
Qed.

Lemma for_itens_Return_status vid its t db r db' :
  for_itens vid its t db = (Return r, db') → status r = 404 ∨ status r = 400.
Proof.
  intros H. apply for_itens_Return in H as (pre & item & post & t' & _ & _ & Hr).
  apply recusa_inv in Hr as [[_ ->]|(p & _ & _ & ->)]; auto.
Qed.

(** ** The handler, case by case *)

Lemma post_vendas_sem_itens req db :
  itens req = None →
  post_vendas req db =
  (mkResponse 500 (JsonError msg_erro), snd (Venda_create (ClienteId req) db)).
Proof. unfold post_vendas. simpl. intros ->. reflexivity. Qed.

Lemma post_vendas_Return req db its r db2 :
  itens req = Some its →
  for_itens (proxima_venda db) its 0%float (snd (Venda_create (ClienteId req) db))
    = (Return r, db2) →
  post_vendas req db = (r, db2).
Proof. unfold post_vendas, proxima_venda. simpl. intros -> ->. reflexivity. Qed.

Lemma post_vendas_Completed req db its t db2 :
  itens req = Some its →
  for_itens (proxima_venda db) its 0%float (snd (Venda_create (ClienteId req) db))
    = (Completed t, db2) →
  post_vendas req db =
  (mkResponse 201
     (JsonVenda (Venda_findByPk (proxima_venda db) (Venda_update (proxima_venda db) t db2))),
   Venda_update (proxima_venda db) t db2).
Proof. unfold post_vendas, proxima_venda. simpl. intros -> ->. reflexivity. Qed.

(** An answer 201 comes from a loop that ran to its end. *)
Lemma post_vendas_201 req db res db' :
  post_vendas req db = (res, db') → status res = 201 →
  ∃ its t db2,
    itens req = Some its ∧
    for_itens (proxima_venda db) its 0%float (snd (Venda_create (ClienteId req) db))
      = (Completed t, db2) ∧
    db' = Venda_update (proxima_venda db) t db2 ∧
    res = mkResponse 201 (JsonVenda (Venda_findByPk (proxima_venda db) db')).
Proof.
  intros H Hst. destruct (itens req) as [its|] eqn:Hi.
  - destruct (for_itens (proxima_venda db) its 0%float
                (snd (Venda_create (ClienteId req) db))) as [[r|t] db2] eqn:Hl.
    + rewrite (post_vendas_Return _ _ _ _ _ Hi Hl) in H. injection H as <- <-.
      apply for_itens_Return_status in Hl. lia.
    + rewrite (post_vendas_Completed _ _ _ _ _ Hi Hl) in H. injection H as <- <-.
      exists its, t, db2. auto.
  - rewrite (post_vendas_sem_itens _ _ Hi) in H. injection H as <- <-. discriminate.
Qed.

(** ** The foreign key of the sale row *)

Lemma fk_ClienteId_Some c db :
  fk_ClienteId (Some c) db = true ↔ is_Some (Clientes db !! c).
Proof. cbn [fk_ClienteId]. apply bool_decide_eq_true. Qed.

Lemma fk_ClienteId_false cid db :
  fk_ClienteId cid db = false ↔ ∃ c, cid = Some c ∧ Clientes db !! c = None.
Proof.
  split.
  - destruct cid as [c|]; [|discriminate]. cbn [fk_ClienteId].
    intros H. apply bool_decide_eq_false in H. exists c. split; [reflexivity|].
    destruct (Clientes db !! c) as [x|]; [|reflexivity]. destruct H. by eexists.
  - intros (c & -> & Hc). cbn [fk_ClienteId]. apply bool_decide_eq_false.
    rewrite Hc. by intros [x Hx].
Qed.

Lemma app_post_vendas_aceito req db :
  fk_ClienteId (ClienteId req) db = true →
  app_post_vendas req db = post_vendas req db.
Proof. unfold app_post_vendas. by intros ->. Qed.

Lemma app_post_vendas_recusado req db :
  fk_ClienteId (ClienteId req) db = false →
  app_post_vendas req db = (mkResponse 500 (JsonError msg_erro), db).
Proof. unfold app_post_vendas. by intros ->. Qed.

(** An answer other than 500 comes from a sale row that was accepted. *)
Lemma app_post_vendas_fk req db :
  status (fst (app_post_vendas req db)) ≠ 500 →
  fk_ClienteId (ClienteId req) db = true.
Proof.
  destruct (fk_ClienteId (ClienteId req) db) eqn:Hfk; [reflexivity|].
  rewrite (app_post_vendas_recusado _ _ Hfk). intros H. by destruct H.
Qed.

(** An answer 201 of the whole handler is an answer 201 of the handler
    after a sale row that was accepted. *)
Lemma app_post_vendas_201 req db res db' :
  app_post_vendas req db = (res, db') → status res = 201 →
  fk_ClienteId (ClienteId req) db = true ∧ post_vendas req db = (res, db').
Proof.
  intros H Hst.
  assert (Hfk : fk_ClienteId (ClienteId req) db = true).
  { apply app_post_vendas_fk. rewrite H. cbn [fst]. lia. }
  split; [exact Hfk|]. by rewrite <- (app_post_vendas_aceito _ _ Hfk).
Qed.

(** ** An accepted sale *)

Lemma da_venda_Forall vid rows :
  Forall (fun r => VendaId r = vid) rows → da_venda vid rows = rows.
Proof.
  unfold da_venda. induction 1 as [|r rows Hr _ IH]; [reflexivity|].
  rewrite filter_cons, decide_True by exact Hr. by rewrite IH.
Qed.

(** The database that an answer 201 leaves, in terms of the rows written
    for the items of the request. *)
Lemma post_vendas_aceita req db res db' :
  post_vendas req db = (res, db') → status res = 201 →
  ∃ its rows,
    itens req = Some its ∧
    Forall2 (linha_de (proxima_venda db) db) its rows ∧
    res = mkResponse 201 (JsonVenda (Venda_findByPk (proxima_venda db) db')) ∧
    Clientes db' = Clientes db ∧
    (∀ k, Produtos db' !! k = baixa (pedido k its) <$> Produtos db !! k) ∧
    Vendas db' =
      <[proxima_venda db :=
          mkVenda (ClienteId req)
            (foldl (fun acc r => (acc + preco_unitario r * num_of_Z (quantidade r))%float)
                   0%float rows)]> (Vendas db) ∧
    ItemVendas db' = foldl (fun acc r => upsert r acc) (ItemVendas db) rows ∧
    Vendas_seq db' = proxima_venda db.
Proof.
  intros H Hst. apply post_vendas_201 in H as (its & t & db2 & Hi & Hl & -> & ->);
    [|exact Hst].
  apply for_itens_Completed in Hl as (Hc & Hv & Hs & Hp & rows & Hrows & Hiv & Ht).
  exists its, rows. split; [exact Hi|]. split; [exact (linhas_Forall2 _ _ _ _ Hrows)|].
  split; [reflexivity|]. unfold Venda_update; cbn [Clientes Produtos Vendas ItemVendas Vendas_seq].
  split; [exact Hc|]. split; [exact Hp|]. split; [|split; [exact Hiv|exact Hs]].
  rewrite Hv, Ht. cbn [Venda_create snd Vendas].
  rewrite alter_insert_eq. reflexivity.
Qed.

(** With pairwise distinct products on a database whose counter is sound,
    the rows of the new sale are the rows written for the items, in order. *)
Lemma itens_da_venda_distintos db its rows rows' :
  db_ok db = true → NoDup (ids its) →
  Forall2 (linha_de (proxima_venda db) db) its rows →
  rows' = foldl (fun acc r => upsert r acc) (ItemVendas db) rows →
  rows' = ItemVendas db ++ rows ∧ da_venda (proxima_venda db) rows' = rows.
Proof.
  intros Hok Hnd Hrows ->.
  assert (Hnone : da_venda (proxima_venda db) (ItemVendas db) = [])
    by (apply (db_ok_ItemVendas db); [exact Hok|unfold proxima_venda; lia]).
  pose proof (linhas_VendaId _ _ _ _ Hrows) as Hvid.
  rewrite (foldl_upsert_novos (proxima_venda db)).
  - split; [reflexivity|]. unfold da_venda in *. rewrite filter_app, Hnone.
    apply (da_venda_Forall _ _ Hvid).
  - exact Hvid.
  - by rewrite (linhas_ProdutoId _ _ _ _ Hrows).
  - intros pid. unfold pids. rewrite Hnone. intros Hin. by apply elem_of_nil in Hin.
Qed.

(** The total stored on an accepted sale is the sum, in the order of the
    request, of price times quantity over the rows written for the requested
    items, whether or not the items repeat a product. *)
Lemma total_soma_dos_pedidos req db res db' its :
  itens req = Some its →
  post_vendas req db = (res, db') → status res = 201 →
  ∃ rows,
    Forall2 (linha_de (proxima_venda db) db) its rows ∧
    total <$> Vendas db' !! proxima_venda db = Some (soma_itens rows).
Proof.
  intros Hi H Hst.
  apply post_vendas_aceita in H as (its' & rows & Hi' & Hrows & _ & _ & _ & Hv & _);
    [|exact Hst].
  assert (its' = its) as -> by congruence.
  exists rows. split; [exact Hrows|]. rewrite Hv, lookup_insert_eq. reflexivity.
Qed.

(** For a request whose items name pairwise distinct products, the total
    stored on the sale is the sum over the persisted rows of the sale of
    [preco_unitario * quantidade]. *)
Lemma total_com_produtos_distintos req db res db' its :
  db_ok db = true → itens req = Some its → NoDup (ids its) →
  post_vendas req db = (res, db') → status res = 201 →
  total <$> Vendas db' !! proxima_venda db =
  Some (soma_itens (itens_da_venda (proxima_venda db) db')).
Proof.
  intros Hok Hi Hnd H Hst.
  apply post_vendas_aceita in H as (its' & rows & Hi' & Hrows & _ & _ & _ & Hv & Hiv & _);
    [|exact Hst].
  assert (its' = its) as -> by congruence.
  destruct (itens_da_venda_distintos db its rows (ItemVendas db') Hok Hnd Hrows Hiv)
    as [_ Hda].
  unfold itens_da_venda. fold (da_venda (proxima_venda db) (ItemVendas db')).
  rewrite Hda, Hv, lookup_insert_eq. reflexivity.
Qed.

(** * The claims *)

(** C2: from P1 (price 10.00, stock 5) and P2 (price 20.00, stock 2), the
    request of customer 1 for two P1 and one P2 is answered 201 with a sale
    whose total is 40.00; P1 is left with 3 in stock and P2 with 1; the sale
    has exactly two rows in the pivot table, with unit prices 10.00 and
    20.00 in this order. *)
Theorem cenario_venda_aceita :
  let res := fst (post_vendas pedido_P1_P2 db0) in
  let db' := snd (post_vendas pedido_P1_P2 db0) in
  status res = 201 ∧
  (∃ v, body res = JsonVenda (Some v) ∧
        vc_ClienteId v = Some 1 ∧ vc_total v = 40%float ∧
        map pv_id (vc_Produtos v) = [1; 2] ∧
        map pv_quantidade (vc_Produtos v) = [2; 1] ∧
        map pv_preco_unitario (vc_Produtos v) = [10%float; 20%float]) ∧
  Vendas db' !! proxima_venda db0 = Some (mkVenda (Some 1) 40%float) ∧
  estoque <$> Produtos db' !! 1 = Some 3 ∧
  estoque <$> Produtos db' !! 2 = Some (2 - 1) ∧
  ItemVendas db' = [mkItemVenda (proxima_venda db0) 1 2 10%float;
                    mkItemVenda (proxima_venda db0) 2 1 20%float].
Proof.
  vm_compute. split; [reflexivity|]. split; [|repeat split; reflexivity].
  eexists. repeat split; reflexivity.
Qed.

(** ** An empty list of items *)

(** C10, as stated, fails: with an empty list of items and the id 9, which
    no customer has, the call fails with the answer 500 and persists
    nothing. *)
Lemma venda_sem_itens_cliente_desconhecido :
  Clientes db0 !! 9 = None ∧
  app_post_vendas (mkRequest (Some 9) (Some [])) db0 =
    (mkResponse 500 (JsonError "Erro ao processar venda"), db0).
Proof. split; reflexivity. Qed.

(** C10, amended: with an empty list of items and the id of an existing
    customer, the handler answers 201 with the sale it has created for that
    customer, whose total is 0 and that has no line items; the sale is
    persisted as such, and neither the products nor the pivot table
    change. With an id that no customer has, the handler answers 500 and
    leaves the database as it was. *)
Theorem venda_sem_itens db cid :
  db_ok db = true →
  let vid := proxima_venda db in
  let res := fst (app_post_vendas (mkRequest (Some cid) (Some [])) db) in
  let db' := snd (app_post_vendas (mkRequest (Some cid) (Some [])) db) in
  (∀ c, Clientes db !! cid = Some c →
        res = mkResponse 201
                (JsonVenda (Some (mkVendaCompleta vid (Some cid) 0%float (Some c) []))) ∧
        Vendas db' !! vid = Some (mkVenda (Some cid) 0%float) ∧
        itens_da_venda vid db' = [] ∧
        Produtos db' = Produtos db ∧
        ItemVendas db' = ItemVendas db) ∧
  (Clientes db !! cid = None →
   res = mkResponse 500 (JsonError "Erro ao processar venda") ∧ db' = db).
Proof.
  intros Hok vid res db'. subst res db'. split.
  - intros c Hc.
    rewrite app_post_vendas_aceito
      by (apply fk_ClienteId_Some; rewrite Hc; by eexists).
    set (db' := snd (post_vendas (mkRequest (Some cid) (Some [])) db)).
    assert (Hnone : itens_da_venda vid db = [])
      by (apply db_ok_ItemVendas; [exact Hok|unfold vid, proxima_venda; lia]).
    assert (Hv : Vendas db' !! vid = Some (mkVenda (Some cid) 0%float)).
    { unfold db', post_vendas, Venda_update, Venda_create; cbn.
      rewrite alter_insert_eq. apply lookup_insert_eq. }
    assert (Hi : itens_da_venda vid db' = []) by exact Hnone.
    assert (Hcl : Clientes db' !! cid = Some c) by exact Hc.
    split; [|split; [exact Hv|split; [exact Hi|split; reflexivity]]].
    change (fst (post_vendas (mkRequest (Some cid) (Some [])) db))
      with (mkResponse 201 (JsonVenda (Venda_findByPk vid db'))).
    unfold Venda_findByPk. rewrite Hv, Hi. cbn [venda_ClienteId total].
    rewrite Hcl. reflexivity.
  - intros Hc.
    rewrite app_post_vendas_recusado; [split; reflexivity|].
    apply fk_ClienteId_false. eauto.
Qed.

Lemma venda_sem_itens_witness :
  db_ok db0 = true ∧
  fst (app_post_vendas (mkRequest (Some 1) (Some [])) db0) =
  mkResponse 201
    (JsonVenda (Some (mkVendaCompleta 1 (Some 1) 0%float (Some cliente1) []))) ∧
  Vendas (snd (app_post_vendas (mkRequest (Some 1) (Some [])) db0)) !! 1 =
    Some (mkVenda (Some 1) 0%float) ∧
  snd (app_post_vendas (mkRequest (Some 9) (Some [])) db0) = db0.
Proof.
  split; [reflexivity|].
  destruct (venda_sem_itens db0 1 eq_refl) as [H _].
  destruct (H cliente1 eq_refl) as (H1 & H2 & _).
  destruct (venda_sem_itens db0 9 eq_refl) as [_ H9].
  destruct (H9 eq_refl) as [_ H3].
  split; [exact H1|]. split; [exact H2|exact H3].
Defined.

(** ** Stock never goes below zero *)

Lemma registra_item_estoque_ok vid item p db :
  Produtos db !! item_ProdutoId item = Some p →
  item_quantidade item ≤ estoque p →
  estoque_ok db → estoque_ok (registra_item vid item p db).
Proof.
  intros Hp Hq Hok k p' Hk. rewrite (registra_item_Produtos _ _ _ _ _ Hp) in Hk.
  destruct (decide (item_ProdutoId item = k)) as [_|_].
  - injection Hk as <-. simpl. lia.
  - exact (Hok k p' Hk).
Qed.

(** The check [produto.estoque < item.quantidade] guards every decrement:
    however the loop ends, it leaves no negative stock. *)
Lemma for_itens_estoque_ok vid its t db l db' :
  for_itens vid its t db = (l, db') → estoque_ok db → estoque_ok db'.
Proof.
  revert t db. induction its as [|item its IH]; intros t db H Hok.
  - by injection H as <- <-.
  - destruct (recusa item db) as [r0|] eqn:Hr.
    { rewrite (for_itens_recusa _ _ _ _ _ _ Hr) in H. by injection H as <- <-. }
    destruct (for_itens_passa vid item its t db Hr) as (p & Hp & Hq & Heq).
    rewrite Heq in H. apply (IH _ _ H). by apply registra_item_estoque_ok.
Qed.

Lemma post_vendas_estoque_ok req db :
  estoque_ok db → estoque_ok (snd (post_vendas req db)).
Proof.
  intros Hok. unfold post_vendas. cbn [Venda_create].
  destruct (itens req) as [its|]; [|exact Hok].
  destruct (for_itens _ its _ _) as [[r|t] db2] eqn:Hl;
    apply for_itens_estoque_ok in Hl; auto.
Qed.

(** C5: starting from a database where no stock is negative, after each
    call of a sequence of successful calls no stock is negative. *)
Theorem estoque_nunca_negativo (reqs : list Request) (db : DB) :
  estoque_ok db →
  Forall (fun r => status (fst r) = 201) (atende reqs db) →
  Forall (fun r => estoque_ok (snd r)) (atende reqs db).
Proof.
  revert db. induction reqs as [|req reqs IH]; intros db Hok Hall; [constructor|].
  cbn [atende] in *. apply Forall_cons in Hall as [_ Hall].
  pose proof (post_vendas_estoque_ok req db Hok) as Hok'.
  constructor; [exact Hok'|]. apply IH; assumption.
Qed.

Lemma estoque_nunca_negativo_witness :
  estoque_ok db0 ∧
  Forall (fun r => status (fst r) = 201)
         (atende [pedido_P1_P2; mkRequest (Some 1) (Some [mkItem 1 3])] db0) ∧
  Forall (fun r => estoque_ok (snd r))
         (atende [pedido_P1_P2; mkRequest (Some 1) (Some [mkItem 1 3])] db0).
Proof.
  assert (H0 : estoque_ok db0) by (apply (bool_decide_unpack (estoque_ok db0)); vm_compute; exact I).
  assert (H1 : Forall (fun r => status (fst r) = 201)
                 (atende [pedido_P1_P2; mkRequest (Some 1) (Some [mkItem 1 3])] db0))
    by (repeat constructor).
  split; [exact H0|]. split; [exact H1|].
  exact (estoque_nunca_negativo _ db0 H0 H1).
Defined.

(** ** A call that fails at an item *)

(** A request fails at [item], after the items [pre], when the loop body
    runs to its end for [pre] and one of the two checks refuses [item] in
    the database reached: the answer is that refusal and the database is
    the one reached. *)
Lemma post_vendas_recusa req db pre item post t db2 r :
  itens req = Some (pre ++ item :: post) →
  for_itens (proxima_venda db) pre 0%float (snd (Venda_create (ClienteId req) db))
    = (Completed t, db2) →
  recusa item db2 = Some r →
  post_vendas req db = (r, db2).
Proof.
  intros Hi Hpre Hr. apply (post_vendas_Return _ _ _ _ _ Hi).
  rewrite for_itens_app, Hpre. by apply for_itens_recusa.
Qed.

(** Every call on a list of items that is not answered 201 is such a call. *)
Lemma post_vendas_falha req db its res db' :
  itens req = Some its → post_vendas req db = (res, db') → status res ≠ 201 →
  ∃ pre item post t,
    its = pre ++ item :: post ∧
    for_itens (proxima_venda db) pre 0%float (snd (Venda_create (ClienteId req) db))
      = (Completed t, db') ∧
    recusa item db' = Some res.
Proof.
  intros Hi H Hst.
  destruct (for_itens (proxima_venda db) its 0%float
              (snd (Venda_create (ClienteId req) db))) as [[r|t] db2] eqn:Hl.
  - rewrite (post_vendas_Return _ _ _ _ _ Hi Hl) in H. injection H as <- <-.
    by apply for_itens_Return in Hl.
  - rewrite (post_vendas_Completed _ _ _ _ _ Hi Hl) in H. injection H as <- <-.
    by destruct Hst.
Qed.

Lemma pedido_0 k its : k ∉ ids its → pedido k its = 0.
Proof.
  unfold ids, pedido. induction its as [|item its IH]; [reflexivity|].
  cbn [map foldr]. rewrite not_elem_of_cons. intros [Hne Hnin].
  rewrite decide_False by congruence. auto.
Qed.

(** The database reached after the items [pre] of a sale. *)
Lemma for_itens_prefixo req db pre t db2 :
  db_ok db = true →
  for_itens (proxima_venda db) pre 0%float (snd (Venda_create (ClienteId req) db))
    = (Completed t, db2) →
  Vendas db2 = <[proxima_venda db := mkVenda (ClienteId req) 0%float]> (Vendas db) ∧
  (∀ k, Produtos db2 !! k = baixa (pedido k pre) <$> Produtos db !! k) ∧
  NoDup (pids (proxima_venda db) (ItemVendas db2)) ∧
  (∀ pid, pid ∈ pids (proxima_venda db) (ItemVendas db2) ↔ pid ∈ ids pre) ∧
  (NoDup (ids pre) →
   Forall2 (linha_de (proxima_venda db) db) pre (itens_da_venda (proxima_venda db) db2)) ∧
  (∀ v, v ≠ proxima_venda db → itens_da_venda v db2 = itens_da_venda v db).
Proof.
  intros Hok Hpre.
  apply for_itens_Completed in Hpre as (_ & Hv & _ & Hp & rows & Hrows & Hiv & _).
  apply linhas_Forall2 in Hrows.
  change (Forall2 (linha_de (proxima_venda db) db) pre rows) in Hrows.
  pose proof (linhas_VendaId _ _ _ _ Hrows) as Hvid.
  cbn [Venda_create snd ItemVendas] in Hiv.
  assert (Hnone : pids (proxima_venda db) (ItemVendas db) = []).
  { unfold pids. fold (itens_da_venda (proxima_venda db) db).
    rewrite db_ok_ItemVendas; [reflexivity|exact Hok|unfold proxima_venda; lia]. }
  destruct (foldl_upsert_pids (proxima_venda db) rows (ItemVendas db) Hvid) as [Hnd Hiff].
  { rewrite Hnone. constructor. }
  rewrite <- Hiv in Hnd, Hiff.
  split; [exact Hv|]. split; [exact Hp|]. split; [exact Hnd|]. split; [|split].
  - intros pid. rewrite Hiff, Hnone, (linhas_ProdutoId _ _ _ _ Hrows), elem_of_nil. tauto.
  - intros Hdist. unfold itens_da_venda.
    destruct (itens_da_venda_distintos db pre rows (ItemVendas db2) Hok Hdist Hrows Hiv)
      as [_ ->]. exact Hrows.
  - intros v Hne. unfold itens_da_venda. rewrite Hiv.
    apply (foldl_upsert_outras (proxima_venda db)); [exact Hvid|congruence].
Qed.

(** C4: when the call fails at an item, what was applied before it stays
    in the database the call leaves: the sale row of step 1, with total 0;
    for every earlier item a row of the sale for its product (the row
    written for the item when the earlier items name pairwise distinct
    products); and every stock lowered by what the earlier items asked. *)
Theorem falha_sem_rollback req db pre item post t db2 r :
  db_ok db = true →
  itens req = Some (pre ++ item :: post) →
  for_itens (proxima_venda db) pre 0%float (snd (Venda_create (ClienteId req) db))
    = (Completed t, db2) →
  recusa item db2 = Some r →
  let vid := proxima_venda db in
  let db' := snd (post_vendas req db) in
  fst (post_vendas req db) = r ∧
  Vendas db' !! vid = Some (mkVenda (ClienteId req) 0%float) ∧
  (∀ it, it ∈ pre →
         ∃ row, row ∈ itens_da_venda vid db' ∧ ProdutoId row = item_ProdutoId it) ∧
  (NoDup (ids pre) → Forall2 (linha_de vid db) pre (itens_da_venda vid db')) ∧
  (∀ k, Produtos db' !! k = baixa (pedido k pre) <$> Produtos db !! k).
Proof.
  intros Hok Hi Hpre Hr vid db'. unfold db'.
  rewrite (post_vendas_recusa _ _ _ _ _ _ _ _ Hi Hpre Hr). cbn [fst snd].
  destruct (for_itens_prefixo _ _ _ _ _ Hok Hpre) as (Hv & Hp & _ & Hiff & Hdist & _).
  split; [reflexivity|]. split; [by rewrite Hv, lookup_insert_eq|].
  split; [|split; [exact Hdist|exact Hp]].
  intros it Hin.
  assert (Hpid : item_ProdutoId it ∈ pids vid (ItemVendas db2)).
  { apply Hiff. unfold ids. apply list_elem_of_fmap. eauto. }
  unfold pids in Hpid. apply list_elem_of_fmap in Hpid as (row & Heq & Hrow). eauto.
Qed.

Lemma falha_sem_rollback_witness :
  db_ok db_AB = true ∧
  fst (post_vendas (mkRequest (Some 1) (Some [mkItem 1 1; mkItem 2 1])) db_AB) =
    mkResponse 400 (JsonError "Estoque insuficiente para B") ∧
  Vendas (snd (post_vendas (mkRequest (Some 1) (Some [mkItem 1 1; mkItem 2 1])) db_AB))
    !! 1 = Some (mkVenda (Some 1) 0%float).
Proof.
  split; [reflexivity|].
  destruct (falha_sem_rollback (mkRequest (Some 1) (Some [mkItem 1 1; mkItem 2 1]))
              db_AB [mkItem 1 1] (mkItem 2 1) [] (5 * 1)%float
              (registra_item 1 (mkItem 1 1) (mkProduto "A" None 5%float 4)
                 (snd (Venda_create (Some 1) db_AB)))
              (mkResponse 400 (JsonError "Estoque insuficiente para B")))
    as (H1 & H2 & _); [reflexivity|reflexivity|vm_compute; reflexivity|reflexivity|].
  split; [exact H1|exact H2].
Defined.

(** C3, as stated, fails: with A in stock and B out of stock, the call for
    one A then one B is refused with 400 and yet leaves the sale row of the
    attempt, a line item for A, and A's stock lowered from 4 to 3; and the
    call for three P2, of which there are two, leaves P2 at 2 but leaves the
    sale row of the attempt too. *)
Lemma falha_parcial_deixa_escritas :
  let db' := snd (post_vendas (mkRequest (Some 1) (Some [mkItem 1 1; mkItem 2 1])) db_AB) in
  let db'' := snd (post_vendas (pedido_de 2 3) db0) in
  status (fst (post_vendas (mkRequest (Some 1) (Some [mkItem 1 1; mkItem 2 1])) db_AB)) = 400 ∧
  estoque <$> Produtos db_AB !! 1 = Some 4 ∧
  estoque <$> Produtos db' !! 1 = Some 3 ∧
  Vendas db' !! 1 = Some (mkVenda (Some 1) 0%float) ∧
  itens_da_venda 1 db' = [mkItemVenda 1 1 1 5%float] ∧
  status (fst (post_vendas (pedido_de 2 3) db0)) = 400 ∧
  estoque <$> Produtos db'' !! 2 = Some 2 ∧
  Vendas db0 !! 1 = None ∧
  Vendas db'' !! 1 = Some (mkVenda (Some 1) 0%float).
Proof. vm_compute. repeat split; reflexivity. Qed.

(** C3, amended: when the call fails at an item, the failing item and the
    items after it write nothing. The stock of every product that no earlier
    item names is unchanged, every line item of the attempt is for a product
    that an earlier item names, and the line items of the other sales and
    the other sale rows are unchanged; so when the first item fails, no line
    item exists for the attempt and no stock has changed. The sale row of
    the attempt is in the database, with total 0. *)
Theorem falha_nao_escreve_mais req db pre item post t db2 r :
  db_ok db = true →
  itens req = Some (pre ++ item :: post) →
  for_itens (proxima_venda db) pre 0%float (snd (Venda_create (ClienteId req) db))
    = (Completed t, db2) →
  recusa item db2 = Some r →
  let vid := proxima_venda db in
  let db' := snd (post_vendas req db) in
  (∀ k, k ∉ ids pre → Produtos db' !! k = Produtos db !! k) ∧
  (∀ row, row ∈ itens_da_venda vid db' → ProdutoId row ∈ ids pre) ∧
  (∀ v, v ≠ vid → itens_da_venda v db' = itens_da_venda v db) ∧
  (∀ v, v ≠ vid → Vendas db' !! v = Vendas db !! v) ∧
  Vendas db' !! vid = Some (mkVenda (ClienteId req) 0%float) ∧
  (pre = [] → itens_da_venda vid db' = [] ∧ Produtos db' = Produtos db).
Proof.
  intros Hok Hi Hpre Hr vid db'. subst vid db'.
  rewrite (post_vendas_recusa _ _ _ _ _ _ _ _ Hi Hpre Hr). cbn [snd].
  destruct (for_itens_prefixo _ _ _ _ _ Hok Hpre) as (Hv & Hp & _ & Hiff & _ & Hout).
  assert (Hrows : ∀ row, row ∈ itens_da_venda (proxima_venda db) db2 →
                         ProdutoId row ∈ ids pre).
  { intros row Hin. apply Hiff. unfold pids. apply list_elem_of_fmap. eauto. }
  split; [|split; [exact Hrows|split; [exact Hout|split; [|split]]]].
  - intros k Hk. rewrite Hp, (pedido_0 _ _ Hk).
    destruct (Produtos db !! k) as [p|]; [|reflexivity]. cbn. by rewrite baixa_0.
  - intros v Hne. rewrite Hv. apply lookup_insert_ne. congruence.
  - rewrite Hv. apply lookup_insert_eq.
  - intros ->. split.
    + destruct (itens_da_venda (proxima_venda db) db2) as [|row l] eqn:E; [reflexivity|].
      exfalso. pose proof (Hrows row) as Hrow. rewrite ?E in Hrow.
      eapply elem_of_nil, Hrow. left.
    + by injection Hpre as _ <-.
Qed.

Lemma falha_nao_escreve_mais_witness :
  db_ok db0 = true ∧
  itens_da_venda 1 (snd (post_vendas (pedido_de 2 3) db0)) = [] ∧
  Produtos (snd (post_vendas (pedido_de 2 3) db0)) = Produtos db0 ∧
  Vendas (snd (post_vendas (pedido_de 2 3) db0)) !! 1 = Some (mkVenda (Some 1) 0%float).
Proof.
  split; [reflexivity|].
  destruct (falha_nao_escreve_mais (pedido_de 2 3) db0 [] (mkItem 2 3) [] 0%float
              (snd (Venda_create (Some 1) db0))
              (mkResponse 400 (JsonError "Estoque insuficiente para P2")))
    as (_ & _ & _ & _ & H5 & H6); [reflexivity|reflexivity|reflexivity|reflexivity|].
  destruct (H6 eq_refl) as [H7 H8]. split; [exact H7|]. split; [exact H8|exact H5].
Defined.

(** ** The two refusals *)

(** C6, as stated, fails: the payload of the 400 answer names the product
    and nothing else. Asking three or four P2 when there are two, or three
    P2 when there is one left, gives the same payload: no reading of the
    payload gives back the requested and the available quantities. *)
Lemma payload_400_sem_quantidades :
  fst (post_vendas (pedido_de 2 3) db0) =
    mkResponse 400 (JsonError "Estoque insuficiente para P2") ∧
  fst (post_vendas (pedido_de 2 4) db0) =
    mkResponse 400 (JsonError "Estoque insuficiente para P2") ∧
  estoque <$> Produtos (snd (post_vendas pedido_P1_P2 db0)) !! 2 = Some 1 ∧
  fst (post_vendas (pedido_de 2 3) (snd (post_vendas pedido_P1_P2 db0))) =
    mkResponse 400 (JsonError "Estoque insuficiente para P2") ∧
  ¬ ∃ quantidades : Body → Z * Z,
      ∀ db pid q p,
        Produtos db !! pid = Some p → estoque p < q →
        quantidades (body (fst (post_vendas (pedido_de pid q) db))) = (q, estoque p).
Proof.
  split; [reflexivity|]. split; [reflexivity|].
  split; [vm_compute; reflexivity|]. split; [vm_compute; reflexivity|].
  intros [f Hf].
  pose proof (Hf db0 2 3 P2 eq_refl eq_refl) as H3.
  pose proof (Hf db0 2 4 P2 eq_refl eq_refl) as H4.
  vm_compute in H3, H4. congruence.
Qed.

(** C6, amended: when the loop reaches an item that asks more than the
    stock the product then has, the call is answered 400 with the payload
    [{ error: "Estoque insuficiente para " + produto.nome }], which names the
    product by its name and reports no quantity; the database is left as
    the earlier items left it, so no line item is recorded for the failing
    item. *)
Theorem estoque_insuficiente_400 req db pre item post t db2 p :
  itens req = Some (pre ++ item :: post) →
  for_itens (proxima_venda db) pre 0%float (snd (Venda_create (ClienteId req) db))
    = (Completed t, db2) →
  Produtos db2 !! item_ProdutoId item = Some p →
  estoque p < item_quantidade item →
  post_vendas req db =
    (mkResponse 400 (JsonError (String.append "Estoque insuficiente para " (nome p))),
     db2) ∧
  ItemVendas (snd (post_vendas req db)) = ItemVendas db2.
Proof.
  intros Hi Hpre Hp Hq.
  assert (Hr : recusa item db2 =
               Some (mkResponse 400 (JsonError (msg_estoque p)))).
  { unfold recusa, Produto_findByPk. rewrite Hp.
    destruct (Z.ltb_spec (estoque p) (item_quantidade item)); [reflexivity|lia]. }
  rewrite (post_vendas_recusa _ _ _ _ _ _ _ _ Hi Hpre Hr). split; reflexivity.
Qed.

Lemma estoque_insuficiente_400_witness :
  estoque P2 < 3 ∧
  post_vendas (pedido_de 2 3) db0 =
    (mkResponse 400 (JsonError "Estoque insuficiente para P2"),
     snd (Venda_create (Some 1) db0)).
Proof.
  split; [reflexivity|].
  apply (estoque_insuficiente_400 (pedido_de 2 3) db0 [] (mkItem 2 3) [] 0%float
           (snd (Venda_create (Some 1) db0)) P2);
    reflexivity.
Defined.

(** C7, as stated, fails: the payload of the 404 answer is a fixed message.
    Asking for product 7 or for product 8, neither of which exists, gives
    the same payload: no reading of the payload gives back the missing id. *)
Lemma payload_404_sem_id :
  fst (post_vendas (pedido_de 7 1) db0) =
    mkResponse 404 (JsonError "Produto não encontrado") ∧
  fst (post_vendas (pedido_de 8 1) db0) =
    mkResponse 404 (JsonError "Produto não encontrado") ∧
  ¬ ∃ id_ausente : Body → Z,
      ∀ db pid q,
        Produtos db !! pid = None →
        id_ausente (body (fst (post_vendas (pedido_de pid q) db))) = pid.
Proof.
  split; [reflexivity|]. split; [reflexivity|].
  intros [f Hf].
  pose proof (Hf db0 7 1 eq_refl) as H7.
  pose proof (Hf db0 8 1 eq_refl) as H8.
  vm_compute in H7, H8. congruence.
Qed.

(** C7, amended: when the loop reaches an item whose product does not
    exist, the call is answered 404 with the fixed payload
    [{ error: "Produto não encontrado" }], which does not carry the id; the
    database is left as the earlier items left it. *)
Theorem produto_nao_encontrado_404 req db pre item post t db2 :
  itens req = Some (pre ++ item :: post) →
  for_itens (proxima_venda db) pre 0%float (snd (Venda_create (ClienteId req) db))
    = (Completed t, db2) →
  Produtos db !! item_ProdutoId item = None →
  post_vendas req db =
    (mkResponse 404 (JsonError "Produto não encontrado"), db2).
Proof.
  intros Hi Hpre Hp.
  assert (Hr : recusa item db2 =
               Some (mkResponse 404 (JsonError msg_nao_encontrado))).
  { apply for_itens_Completed in Hpre as (_ & _ & _ & Hprod & _).
    unfold recusa, Produto_findByPk. rewrite Hprod.
    cbn [Venda_create snd Produtos]. rewrite Hp. reflexivity. }
  by rewrite (post_vendas_recusa _ _ _ _ _ _ _ _ Hi Hpre Hr).
Qed.

Lemma produto_nao_encontrado_404_witness :
  Produtos db0 !! 7 = None ∧
  post_vendas (mkRequest (Some 1) (Some [mkItem 1 2; mkItem 7 1])) db0 =
    (mkResponse 404 (JsonError "Produto não encontrado"),
     registra_item 1 (mkItem 1 2) P1 (snd (Venda_create (Some 1) db0))).
Proof.
  split; [reflexivity|].
  apply (produto_nao_encontrado_404 (mkRequest (Some 1) (Some [mkItem 1 2; mkItem 7 1]))
           db0 [mkItem 1 2] (mkItem 7 1) [] (10 * 2)%float);
    [reflexivity|vm_compute; reflexivity|reflexivity].
Defined.

(** ** The items that the loop lets through *)

Lemma pedido_cons k item its :
  pedido k (item :: its) =
  (if decide (item_ProdutoId item = k) then item_quantidade item else 0) + pedido k its.
Proof. unfold pedido. cbn [foldr]. destruct (decide _); lia. Qed.

Lemma for_itens_atendivel vid its t db :
  (∃ t' db', for_itens vid its t db = (Completed t', db')) ↔
  atendivel (Produtos db) its.
Proof.
  revert t db. induction its as [|item0 rest IH]; intros t db.
  { split; [|by eexists _, _]. intros _ [|??] ???; discriminate. }
  split.
  - intros (t' & db' & H).
    destruct (recusa item0 db) as [r0|] eqn:Hr.
    { rewrite (for_itens_recusa _ _ _ _ _ _ Hr) in H. discriminate. }
    destruct (for_itens_passa vid item0 rest t db Hr) as (p0 & Hp0 & Hq0 & Heq).
    rewrite Heq in H.
    assert (Hrest : atendivel (Produtos (registra_item vid item0 p0 db)) rest)
      by (apply (IH (t + preco p0 * num_of_Z (item_quantidade item0))%float); eauto).
    intros [|x pre] item post Hsplit; injection Hsplit as <- Hsplit.
    + exists p0. split; [exact Hp0|]. cbn [pedido foldr]. lia.
    + destruct (Hrest pre item post Hsplit) as (p1 & Hp1 & Hq1).
      rewrite (registra_item_Produtos _ _ _ _ _ Hp0) in Hp1. rewrite pedido_cons.
      destruct (decide (item_ProdutoId item0 = item_ProdutoId item)) as [e|_].
      * injection Hp1 as <-. exists p0. rewrite <- e. split; [exact Hp0|].
        rewrite e. cbn [baixa estoque] in Hq1. lia.
      * exists p1. split; [exact Hp1|lia].
  - intros Hat.
    destruct (Hat [] item0 rest eq_refl) as (p0 & Hp0 & Hq0). cbn [pedido foldr] in Hq0.
    assert (Hr : recusa item0 db = None).
    { unfold recusa, Produto_findByPk. rewrite Hp0.
      destruct (Z.ltb_spec (estoque p0) (item_quantidade item0)); [lia|reflexivity]. }
    destruct (for_itens_passa vid item0 rest t db Hr) as (p & Hp & _ & ->).
    assert (p = p0) as -> by congruence.
    apply IH. intros pre item post Hsplit.
    destruct (Hat (item0 :: pre) item post) as (p1 & Hp1 & Hq1); [by rewrite Hsplit|].
    rewrite pedido_cons in Hq1. rewrite (registra_item_Produtos _ _ _ _ _ Hp0).
    destruct (decide (item_ProdutoId item0 = item_ProdutoId item)) as [e|_].
    + rewrite <- e in Hp1. assert (p1 = p0) as -> by congruence.
      eexists. split; [reflexivity|]. cbn [baixa estoque]. lia.
    + exists p1. split; [exact Hp1|lia].
Qed.


Lemma atendivel_prefixo produtos pre rest :
  atendivel produtos (pre ++ rest) → atendivel produtos pre.
Proof.
  intros H a x b ->. apply (H a x (b ++ rest)). by rewrite <- app_assoc.
Qed.



(** ** Requests that are not checked *)





(** ** Line items *)

(** C8, as stated, fails: the request for two P1 and then one more P1 is
    answered 201, and the sale has one line item for its two entries; the
    row written for the first entry, with quantity 2, has become the row of
    the second, with quantity 1. *)
Lemma produto_repetido_uma_linha :
  status (fst (post_vendas pedido_P1_P1 db0)) = 201 ∧
  itens pedido_P1_P1 = Some [mkItem 1 2; mkItem 1 1] ∧
  itens_da_venda 1 (registra_item 1 (mkItem 1 2) P1 (snd (Venda_create (Some 1) db0))) =
    [mkItemVenda 1 1 2 10%float] ∧
  itens_da_venda 1 (snd (post_vendas pedido_P1_P1 db0)) = [mkItemVenda 1 1 1 10%float].
Proof. vm_compute. repeat split; reflexivity. Qed.

(** C8, amended: after a successful call the sale has exactly one line
    item per product that the request names; when the entries of the
    request name pairwise distinct products, these are, in the order of the
    request, the rows written for the entries, one per entry, each with the
    product, the quantity and the price of the product; and the call
    changes no line item of another sale. *)
Theorem uma_linha_por_produto req db its res db' :
  db_ok db = true →
  itens req = Some its →
  post_vendas req db = (res, db') →
  status res = 201 →
  let vid := proxima_venda db in
  NoDup (map ProdutoId (itens_da_venda vid db')) ∧
  (∀ pid, pid ∈ map ProdutoId (itens_da_venda vid db') ↔ pid ∈ ids its) ∧
  (NoDup (ids its) →
   Forall2 (linha_de vid db) its (itens_da_venda vid db') ∧
   length (itens_da_venda vid db') = length its) ∧
  (∀ v, v ≠ vid → itens_da_venda v db' = itens_da_venda v db).
Proof.
  intros Hok Hi H Hst vid. subst vid.
  apply post_vendas_201 in H as (its' & t & db2 & Hi' & Hl & -> & _); [|exact Hst].
  assert (its' = its) as -> by congruence.
  destruct (for_itens_prefixo _ _ _ _ _ Hok Hl) as (_ & _ & Hnd & Hiff & Hdist & Hout).
  split; [exact Hnd|]. split; [exact Hiff|]. split; [|exact Hout].
  intros Hd. specialize (Hdist Hd). split; [exact Hdist|].
  symmetry. exact (Forall2_length _ _ _ Hdist).
Qed.

Lemma uma_linha_por_produto_witness :
  db_ok db0 = true ∧ status (fst (post_vendas pedido_P1_P2 db0)) = 201 ∧
  length (itens_da_venda 1 (snd (post_vendas pedido_P1_P2 db0))) = 2%nat.
Proof.
  split; [reflexivity|]. split; [reflexivity|].
  destruct (uma_linha_por_produto pedido_P1_P2 db0 [mkItem 1 2; mkItem 2 1]
              (fst (post_vendas pedido_P1_P2 db0)) (snd (post_vendas pedido_P1_P2 db0)))
    as (_ & _ & H & _); [reflexivity|reflexivity|vm_compute; reflexivity|reflexivity|].
  destruct H as [_ H]; [|exact H].
  apply (bool_decide_unpack (NoDup (ids [mkItem 1 2; mkItem 2 1]))). vm_compute. exact I.
Defined.

(** ** The total of a sale *)

(** C1 at a request that repeats a product: the request for two P1 and then
    one more P1 is answered 201; three P1 leave the stock and the total
    stored on the sale is 30.00, the sum over the requested entries, while
    the only line item of the sale has quantity 1 and unit price 10.00, so
    that the sum over the line items is 10.00. *)
Theorem total_com_produto_repetido :
  let res := fst (post_vendas pedido_P1_P1 db0) in
  let db' := snd (post_vendas pedido_P1_P1 db0) in
  status res = 201 ∧
  estoque <$> Produtos db' !! 1 = Some (5 - 3) ∧
  total <$> Vendas db' !! 1 = Some 30%float ∧
  itens_da_venda 1 db' = [mkItemVenda 1 1 1 10%float] ∧
  soma_itens (itens_da_venda 1 db') = 10%float ∧
  total <$> Vendas db' !! 1 ≠ Some (soma_itens (itens_da_venda 1 db')).
Proof.
  vm_compute. repeat split; try reflexivity. discriminate.
Qed.

(** ** The counter stays sound *)

(** Every call leaves a database whose counter is sound, so that the
    assumption made on the database of a call holds along any sequence of
    calls that starts from such a database. *)
Lemma post_vendas_db_ok req db :
  db_ok db = true → db_ok (snd (post_vendas req db)) = true.
Proof.
  intros Hok. pose proof Hok as Hok'. unfold db_ok in Hok'.
  apply andb_prop in Hok' as [Hv Hr]. apply bool_decide_eq_true_1 in Hv.
  rewrite forallb_forall in Hr.
  assert (Hcriada : ∀ db2,
            Vendas_seq db2 = proxima_venda db →
            (∀ k, is_Some (Vendas db2 !! k) →
                  is_Some (Vendas (snd (Venda_create (ClienteId req) db)) !! k)) →
            (∀ r, r ∈ ItemVendas db2 → r ∈ ItemVendas db ∨ VendaId r = proxima_venda db) →
            db_ok db2 = true).
  { intros db2 Hs Hvs Hrs. unfold db_ok. apply andb_true_intro. split.
    - apply bool_decide_eq_true_2. intros k v Hk. rewrite Hs.
      destruct (Hvs k (mk_is_Some _ _ Hk)) as [v' Hk'].
      cbn [Venda_create snd Vendas] in Hk'. fold (proxima_venda db) in Hk'.
      destruct (decide (proxima_venda db = k)) as [<-|Hne]; [lia|].
      rewrite lookup_insert_ne in Hk' by exact Hne.
      pose proof (Hv _ _ Hk') as Hle. cbn beta in Hle. unfold proxima_venda. lia.
    - apply forallb_forall. intros r Hin. apply bool_decide_eq_true_2. rewrite Hs.
      apply list_elem_of_In, Hrs in Hin as [Hin| ->]; [|lia].
      apply list_elem_of_In, Hr, bool_decide_eq_true_1 in Hin.
      unfold proxima_venda. lia. }
  unfold post_vendas. cbn [Venda_create]. fold (proxima_venda db).
  destruct (itens req) as [its|].
  - destruct (for_itens _ its _ _) as [[r|t] db2] eqn:Hl;
      apply for_itens_quadro in Hl as (_ & Hvs & Hs & Hrs); cbn [snd].
    + apply Hcriada; [exact Hs| |exact Hrs]. intros k. by rewrite Hvs.
    + apply Hcriada; [exact Hs| |exact Hrs]. intros k. cbn [Venda_update Vendas].
      rewrite lookup_alter_is_Some, Hvs. auto.
  - apply Hcriada; [reflexivity|auto|auto].
Qed.

(** * Further properties of the sale route *)

(** ** Products under a call *)

(** Whatever the answer, the products are left as the loop left them after
    a prefix of the items: the whole list when the answer is 201. *)
Lemma post_vendas_Produtos req db :
  ∃ pre,
    (∀ its, itens req = Some its →
            pre `prefix_of` its ∧
            (status (fst (post_vendas req db)) = 201 → pre = its)) ∧
    (itens req = None → pre = []) ∧
    ∀ k, Produtos (snd (post_vendas req db)) !! k =
         baixa (pedido k pre) <$> Produtos db !! k.
Proof.
  destruct (itens req) as [its|] eqn:Hi.
  - destruct (for_itens (proxima_venda db) its 0%float
                (snd (Venda_create (ClienteId req) db))) as [[r|t] db2] eqn:Hl.
    + rewrite (post_vendas_Return _ _ _ _ _ Hi Hl). cbn [fst snd].
      pose proof (for_itens_Return_status _ _ _ _ _ _ Hl) as Hst.
      apply for_itens_Return in Hl as (pre & item & post & t' & -> & Hpre & _).
      apply for_itens_Completed in Hpre as (_ & _ & _ & Hp & _).
      exists pre. split; [|split; [discriminate|exact Hp]].
      intros its' [= <-]. split; [by eexists|]. lia.
    + rewrite (post_vendas_Completed _ _ _ _ _ Hi Hl). cbn [fst snd].
      apply for_itens_Completed in Hl as (_ & _ & _ & Hp & _).
      exists its. split; [|split; [discriminate|exact Hp]].
      intros its' [= <-]. auto.
  - rewrite (post_vendas_sem_itens _ _ Hi). cbn [snd Venda_create Produtos].
    exists []. split; [discriminate|]. split; [reflexivity|].
    intros k. cbn [pedido foldr]. destruct (Produtos db !! k) as [p|]; [|reflexivity].
    cbn. by rewrite baixa_0.
Qed.

Lemma pedido_nao_negativo k its :
  Forall (fun it => 0 ≤ item_quantidade it) its → 0 ≤ pedido k its.
Proof.
  unfold pedido. induction 1 as [|it its Hq _ IH]; cbn [foldr]; [lia|].
  destruct (decide _); lia.
Qed.



(** X2: whatever the request and the answer, accepted, refused or failed, a
    call creates and removes no product and changes no name, description or
    price; and when no item of the request has a negative quantity, no stock
    is higher after the call than before. *)
Theorem produtos_so_perdem_estoque req db :
  let db' := snd (post_vendas req db) in
  (∀ k, nome <$> Produtos db' !! k = nome <$> Produtos db !! k ∧
        descricao <$> Produtos db' !! k = descricao <$> Produtos db !! k ∧
        preco <$> Produtos db' !! k = preco <$> Produtos db !! k) ∧
  (∀ its, itens req = Some its →
          Forall (fun it => 0 ≤ item_quantidade it) its →
          ∀ k p p', Produtos db !! k = Some p → Produtos db' !! k = Some p' →
                    estoque p' ≤ estoque p).
Proof.
  intros db'. subst db'.
  destruct (post_vendas_Produtos req db) as (pre & Hpre & _ & Hp). split.
  - intros k. rewrite Hp. destruct (Produtos db !! k) as [p|]; auto.
  - intros its Hi Hall k p p' Hk Hk'. rewrite Hp, Hk in Hk'. injection Hk' as <-.
    destruct (Hpre its Hi) as [[post ->] _]. apply Forall_app in Hall as [Hall _].
    pose proof (pedido_nao_negativo k pre Hall). cbn. lia.
Qed.

Lemma produtos_so_perdem_estoque_witness :
  Forall (fun it => 0 ≤ item_quantidade it) [mkItem 1 1; mkItem 2 1] ∧
  estoque (mkProduto "A" None 5%float 3) ≤ 4.
Proof.
  assert (H : Forall (fun it => 0 ≤ item_quantidade it) [mkItem 1 1; mkItem 2 1])
    by (repeat constructor; simpl; lia).
  split; [exact H|].
  destruct (produtos_so_perdem_estoque
              (mkRequest (Some 1) (Some [mkItem 1 1; mkItem 2 1])) db_AB) as [_ Hm].
  exact (Hm [mkItem 1 1; mkItem 2 1] eq_refl H 1
            (mkProduto "A" None 5%float 4) (mkProduto "A" None 5%float 3)
            eq_refl ltac:(vm_compute; reflexivity)).
Defined.

(** ** Which requests are accepted *)





(** ** The database after any call *)

(** Whatever the request and the answer, the call has created the sale row
    and has run the loop body for a prefix of the items: the whole list
    when the answer is 201. *)
Lemma post_vendas_geral req db :
  ∃ pre rows t,
    (∀ its, itens req = Some its →
            pre `prefix_of` its ∧
            (status (fst (post_vendas req db)) = 201 → pre = its)) ∧
    (itens req = None → pre = []) ∧
    (status (fst (post_vendas req db)) ≠ 201 → t = 0%float) ∧
    Forall2 (linha_de (proxima_venda db) db) pre rows ∧
    Clientes (snd (post_vendas req db)) = Clientes db ∧
    Vendas (snd (post_vendas req db)) =
      <[proxima_venda db := mkVenda (ClienteId req) t]> (Vendas db) ∧
    ItemVendas (snd (post_vendas req db)) =
      foldl (fun acc r => upsert r acc) (ItemVendas db) rows ∧
    Vendas_seq (snd (post_vendas req db)) = proxima_venda db.
Proof.
  destruct (itens req) as [its|] eqn:Hi.
  - destruct (for_itens (proxima_venda db) its 0%float
                (snd (Venda_create (ClienteId req) db))) as [[r|t] db2] eqn:Hl.
    + rewrite (post_vendas_Return _ _ _ _ _ Hi Hl). cbn [fst snd].
      pose proof (for_itens_Return_status _ _ _ _ _ _ Hl) as Hst.
      apply for_itens_Return in Hl as (pre & item & post & t' & -> & Hpre & _).
      apply for_itens_Completed in Hpre as (Hc & Hv & Hs & _ & rows & Hrows & Hiv & _).
      apply linhas_Forall2 in Hrows.
      exists pre, rows, 0%float.
      split; [intros its' [= <-]; split; [by eexists|lia]|].
      split; [discriminate|]. split; [reflexivity|]. split; [exact Hrows|].
      split; [exact Hc|]. split; [exact Hv|]. split; [exact Hiv|exact Hs].
    + rewrite (post_vendas_Completed _ _ _ _ _ Hi Hl). cbn [fst snd status].
      apply for_itens_Completed in Hl as (Hc & Hv & Hs & _ & rows & Hrows & Hiv & _).
      apply linhas_Forall2 in Hrows.
      exists its, rows, t.
      split; [intros its' [= <-]; auto|].
      split; [discriminate|]. split; [intros H; by destruct H|]. split; [exact Hrows|].
      unfold Venda_update; cbn [Clientes Vendas ItemVendas Vendas_seq].
      split; [exact Hc|]. split; [|split; [exact Hiv|exact Hs]].
      rewrite Hv. cbn [Venda_create snd Vendas]. fold (proxima_venda db).
      by rewrite alter_insert_eq.
  - rewrite (post_vendas_sem_itens _ _ Hi). cbn [fst snd].
    exists [], [], 0%float. split; [discriminate|]. repeat (split; [reflexivity|]).
    split; [constructor|]. repeat split; reflexivity.
Qed.

(** The rows of a table that has received some [add]s are its old rows or
    the rows added. *)
Lemma elem_of_foldl_upsert news acc r :
  r ∈ foldl (fun a x => upsert x a) acc news → r ∈ acc ∨ r ∈ news.
Proof.
  revert acc. induction news as [|x news IH]; intros acc; cbn [foldl]; [auto|].
  intros Hin. apply IH in Hin as [Hin|Hin]; [|right; by right].
  apply elem_of_upsert in Hin as [Hin| ->]; [by left|right; left].
Qed.

(** X4: whatever the request and the answer, a call leaves the customers as
    they were and touches no sale but the one it creates: every other sale
    keeps its row, total included, and its line items, unit prices
    included. *)
Theorem vendas_anteriores_intactas req db :
  let db' := snd (post_vendas req db) in
  Clientes db' = Clientes db ∧
  ∀ v, v ≠ proxima_venda db →
       Vendas db' !! v = Vendas db !! v ∧
       itens_da_venda v db' = itens_da_venda v db.
Proof.
  intros db'. subst db'.
  destruct (post_vendas_geral req db) as (pre & rows & t & _ & _ & _ & Hrows & Hc & Hv & Hiv & _).
  split; [exact Hc|]. intros v Hne. split.
  - rewrite Hv. apply lookup_insert_ne. congruence.
  - unfold itens_da_venda. rewrite Hiv.
    apply (foldl_upsert_outras (proxima_venda db));
      [exact (linhas_VendaId _ _ _ _ Hrows)|congruence].
Qed.

Lemma vendas_anteriores_intactas_witness :
  1 ≠ proxima_venda (snd (post_vendas pedido_P1_P2 db0)) ∧
  Vendas (snd (post_vendas pedido_P1_P1 (snd (post_vendas pedido_P1_P2 db0)))) !! 1 =
    Vendas (snd (post_vendas pedido_P1_P2 db0)) !! 1 ∧
  itens_da_venda 1 (snd (post_vendas pedido_P1_P1 (snd (post_vendas pedido_P1_P2 db0)))) =
    itens_da_venda 1 (snd (post_vendas pedido_P1_P2 db0)).
Proof.
  assert (Hne : 1 ≠ proxima_venda (snd (post_vendas pedido_P1_P2 db0)))
    by (vm_compute; discriminate).
  split; [exact Hne|].
  destruct (vendas_anteriores_intactas pedido_P1_P1 (snd (post_vendas pedido_P1_P2 db0)))
    as [_ H].
  exact (H 1 Hne).
Defined.

(** X5: on a database whose counter is sound, with stocks and quantities
    within 2^53, every call whose customer id, if it has one, is the id of a
    customer adds exactly one sale row, accepted or not: under an id that no
    sale had, the next of the counter, bound to the customer id of the
    request; and the total of that row is 0 whenever the answer is not 201.
    A call with a customer id that no customer has is answered 500 and adds
    no sale row: it leaves the database as it was. *)
Theorem cada_pedido_cria_uma_venda req db :
  db_ok db = true →
  exato db (default [] (itens req)) →
  let vid := proxima_venda db in
  let res := fst (app_post_vendas req db) in
  let db' := snd (app_post_vendas req db) in
  (fk_ClienteId (ClienteId req) db = true →
   Vendas db !! vid = None ∧
   Vendas_seq db' = Vendas_seq db + 1 ∧
   venda_ClienteId <$> Vendas db' !! vid = Some (ClienteId req) ∧
   size (Vendas db') = S (size (Vendas db)) ∧
   (status res ≠ 201 → total <$> Vendas db' !! vid = Some 0%float)) ∧
  (∀ c, ClienteId req = Some c → Clientes db !! c = None →
        res = mkResponse 500 (JsonError "Erro ao processar venda") ∧ db' = db).
Proof.
  intros Hok _ vid res db'. subst vid res db'. split.
  - intros Hfk. rewrite (app_post_vendas_aceito _ _ Hfk).
    assert (Hnone : Vendas db !! proxima_venda db = None)
      by (apply db_ok_Vendas; [exact Hok|unfold proxima_venda; lia]).
    destruct (post_vendas_geral req db)
      as (pre & rows & t & _ & _ & Ht & _ & _ & Hv & _ & Hs).
    split; [exact Hnone|]. split; [exact Hs|]. rewrite Hv, lookup_insert_eq.
    split; [reflexivity|]. split; [by apply map_size_insert_None|].
    intros Hst. by rewrite (Ht Hst).
  - intros c Hc Hnone.
    assert (Hfk : fk_ClienteId (ClienteId req) db = false)
      by (apply fk_ClienteId_false; eauto).
    rewrite (app_post_vendas_recusado _ _ Hfk). by split.
Qed.

Lemma cada_pedido_cria_uma_venda_witness :
  db_ok db0 = true ∧
  exato db0 [mkItem 7 1] ∧ exato db0 [mkItem 1 1] ∧
  status (fst (app_post_vendas (pedido_de 7 1) db0)) ≠ 201 ∧
  size (Vendas (snd (app_post_vendas (pedido_de 7 1) db0))) = 1%nat ∧
  total <$> Vendas (snd (app_post_vendas (pedido_de 7 1) db0)) !! 1 = Some 0%float ∧
  snd (app_post_vendas (mkRequest (Some 9) (Some [mkItem 1 1])) db0) = db0.
Proof.
  assert (Hst : status (fst (app_post_vendas (pedido_de 7 1) db0)) ≠ 201)
    by (vm_compute; discriminate).
  assert (Hex7 : exato db0 [mkItem 7 1])
    by (apply (bool_decide_unpack (exato db0 [mkItem 7 1])); vm_compute; exact I).
  assert (Hex1 : exato db0 [mkItem 1 1])
    by (apply (bool_decide_unpack (exato db0 [mkItem 1 1])); vm_compute; exact I).
  split; [reflexivity|]. split; [exact Hex7|]. split; [exact Hex1|]. split; [exact Hst|].
  destruct (cada_pedido_cria_uma_venda (pedido_de 7 1) db0 eq_refl Hex7) as [H _].
  destruct (H eq_refl) as (_ & _ & _ & H4 & H5).
  split; [exact H4|]. split; [exact (H5 Hst)|].
  destruct (cada_pedido_cria_uma_venda (mkRequest (Some 9) (Some [mkItem 1 1])) db0
              eq_refl Hex1) as [_ H9].
  exact (proj2 (H9 9 eq_refl eq_refl)).
Defined.

(** ** The integrity of the pivot table *)

Lemma chaves_upsert row rows :
  map (fun r => (VendaId r, ProdutoId r)) (upsert row rows) =
  if decide ((VendaId row, ProdutoId row) ∈ map (fun r => (VendaId r, ProdutoId r)) rows)
  then map (fun r => (VendaId r, ProdutoId r)) rows
  else map (fun r => (VendaId r, ProdutoId r)) rows ++ [(VendaId row, ProdutoId row)].
Proof.
  destruct (decide _) as [Hin|Hnin].
  - apply list_elem_of_fmap in Hin as (r0 & Heq & Hin). injection Heq as Hv Hp.
    rewrite (upsert_achado row rows r0 Hin); [|by split].
    rewrite map_map. apply map_ext. intros r.
    destruct (decide (do_par (VendaId row) (ProdutoId row) r)) as [[-> ->]|]; reflexivity.
  - rewrite upsert_novo; [by rewrite map_app|].
    intros r Hin [Hv Hp]. apply Hnin. apply list_elem_of_fmap. exists r.
    split; [by rewrite Hv, Hp|exact Hin].
Qed.

Lemma foldl_upsert_chaves news acc :
  NoDup (map (fun r => (VendaId r, ProdutoId r)) acc) →
  NoDup (map (fun r => (VendaId r, ProdutoId r)) (foldl (fun a x => upsert x a) acc news)).
Proof.
  revert acc. induction news as [|x news IH]; intros acc Hnd; cbn [foldl]; [exact Hnd|].
  apply IH. rewrite chaves_upsert. destruct (decide _) as [|Hnin]; [exact Hnd|].
  apply NoDup_app. split; [exact Hnd|]. split; [|apply NoDup_singleton].
  intros k Hk Hk'. apply list_elem_of_singleton in Hk'. subst k. exact (Hnin Hk).
Qed.

Lemma post_vendas_refs_ok req db :
  refs_ok db → refs_ok (snd (post_vendas req db)).
Proof.
  destruct (post_vendas_geral req db)
    as (pre & rows & t & _ & _ & _ & Hrows & _ & Hv & Hiv & _).
  destruct (post_vendas_Produtos req db) as (pre' & _ & _ & Hp).
  intros Hok r Hin. rewrite Hiv in Hin.
  apply elem_of_foldl_upsert in Hin as [Hin|Hin].
  - destruct (Hok r Hin) as [[x Hx] [p Hk]]. split.
    + rewrite Hv. apply lookup_insert_is_Some.
      destruct (decide (proxima_venda db = VendaId r)); [by left|right; eauto].
    + rewrite Hp, Hk. by eexists.
  - apply list_elem_of_lookup in Hin as [i Hi].
    destruct (Forall2_lookup_r _ _ _ i r Hrows Hi) as (item & _ & p & Hitem & ->).
    cbn [VendaId ProdutoId]. split.
    + rewrite Hv, lookup_insert_eq. by eexists.
    + rewrite Hp, Hitem. by eexists.
Qed.

Lemma post_vendas_pivo_ok req db :
  pivo_ok db → pivo_ok (snd (post_vendas req db)).
Proof.
  destruct (post_vendas_geral req db)
    as (pre & rows & t & _ & _ & _ & _ & _ & _ & Hiv & _).
  unfold pivo_ok. rewrite Hiv. apply foldl_upsert_chaves.
Qed.

(** X6: the call keeps the integrity of the pivot table, whatever the
    request and the answer. If every row refers to a sale and to a product
    that exist, the same holds after the call; and if no two rows have the
    same pair (sale, product), the same holds after the call. *)
Theorem post_vendas_integridade req db :
  (refs_ok db → refs_ok (snd (post_vendas req db))) ∧
  (pivo_ok db → pivo_ok (snd (post_vendas req db))).
Proof.
  split.
  - intros Hok. by apply post_vendas_refs_ok.
  - intros Hok. by apply post_vendas_pivo_ok.
Qed.

Lemma post_vendas_integridade_witness :
  refs_ok db0 ∧ pivo_ok db0 ∧
  refs_ok (snd (post_vendas pedido_P1_P1 db0)) ∧
  pivo_ok (snd (post_vendas pedido_P1_P1 db0)).
Proof.
  assert (H1 : refs_ok db0) by (intros r Hin; by apply elem_of_nil in Hin).
  assert (H2 : pivo_ok db0) by constructor.
  destruct (post_vendas_integridade pedido_P1_P1 db0) as [H3 H4].
  split; [exact H1|]. split; [exact H2|]. split; [exact (H3 H1)|exact (H4 H2)].
Defined.

(** ** The answer 201 and the database *)

Lemma omap_Forall2 {A B} (f : A → option B) (R : A → B → Prop) (l : list A) :
  (∀ x, x ∈ l → ∃ y, f x = Some y ∧ R x y) → Forall2 R l (omap f l).
Proof.
  induction l as [|x l IH]; intros H; [constructor|].
  destruct (H x) as (y & Hy & HR); [left|]. cbn [omap list_omap]. rewrite Hy.
  constructor; [exact HR|]. apply IH. intros x' Hin. apply H. by right.
Qed.

(** X7: the sale in the body of an answer 201 is the sale as the database
    holds it when the call ends: its id is the new id, its customer id and
    its total are those of the stored row, its customer is the customer of
    that id if there is one, and its products are, entry by entry, the line
    items of the sale, none left out, each with the quantity and the unit
    price of the row and with the product as stored, stock already
    lowered. *)
Theorem resposta_confere_com_o_banco req db res db' :
  db_ok db = true →
  post_vendas req db = (res, db') →
  status res = 201 →
  ∃ v, body res = JsonVenda (Some v) ∧
       vc_id v = proxima_venda db ∧
       vc_ClienteId v = ClienteId req ∧
       Vendas db' !! vc_id v = Some (mkVenda (vc_ClienteId v) (vc_total v)) ∧
       vc_Cliente v = match ClienteId req with
                      | Some c => Clientes db' !! c
                      | None => None
                      end ∧
       Forall2 (entrada_de db') (itens_da_venda (proxima_venda db) db') (vc_Produtos v).
Proof.
  intros Hok H Hst.
  pose proof H as H'.
  apply post_vendas_aceita in H' as (its0 & rows0 & Hi0 & _ & _ & _ & Hp & Hv & _);
    [|exact Hst].
  apply post_vendas_201 in H as (its & t & db2 & Hi & Hl & Hdb & ->); [|exact Hst].
  assert (its0 = its) as -> by congruence.
  assert (Hat : atendivel (Produtos db) its).
  { change (Produtos db) with (Produtos (snd (Venda_create (ClienteId req) db))).
    apply (for_itens_atendivel (proxima_venda db) its 0%float). eauto. }
  destruct (for_itens_prefixo _ _ _ _ _ Hok Hl) as (_ & _ & _ & Hiff & _ & _).
  assert (Hiv : ItemVendas db' = ItemVendas db2) by (by rewrite Hdb).
  rewrite <- Hiv in Hiff. clear Hdb Hl Hiv.
  unfold Venda_findByPk. rewrite Hv, lookup_insert_eq. cbn [venda_ClienteId total body].
  eexists. split; [reflexivity|]. cbn [vc_id vc_ClienteId vc_total vc_Cliente vc_Produtos].
  split; [reflexivity|]. split; [reflexivity|].
  split; [by rewrite lookup_insert_eq|]. split; [reflexivity|].
  apply omap_Forall2. intros r Hin.
  assert (Hpid : ProdutoId r ∈ ids its).
  { apply Hiff. unfold pids. apply list_elem_of_fmap. exists r. split; [reflexivity|exact Hin]. }
  unfold ids in Hpid. apply list_elem_of_fmap in Hpid as (item & Hid & Hitem).
  apply list_elem_of_split in Hitem as (pre & post & ->).
  destruct (Hat pre item post eq_refl) as (p & Hpk & _).
  rewrite Hp, Hid, Hpk. cbn [fmap option_fmap option_map]. eexists. split; [reflexivity|].
  unfold entrada_de. cbn [pv_id pv_quantidade pv_preco_unitario pv_produto].
  rewrite Hp, Hid, Hpk. auto.
Qed.

Lemma resposta_confere_com_o_banco_witness :
  db_ok db0 = true ∧ status (fst (post_vendas pedido_P1_P2 db0)) = 201 ∧
  ∃ v, body (fst (post_vendas pedido_P1_P2 db0)) = JsonVenda (Some v) ∧
       Forall2 (entrada_de (snd (post_vendas pedido_P1_P2 db0)))
               (itens_da_venda 1 (snd (post_vendas pedido_P1_P2 db0))) (vc_Produtos v).
Proof.
  split; [reflexivity|]. split; [reflexivity|].
  destruct (resposta_confere_com_o_banco pedido_P1_P2 db0
              (fst (post_vendas pedido_P1_P2 db0)) (snd (post_vendas pedido_P1_P2 db0)))
    as (v & H1 & _ & _ & _ & _ & H6); [reflexivity|vm_compute; reflexivity|reflexivity|].
  exists v. split; [exact H1|exact H6].
Defined.

(** ** Selling along a sequence of calls *)



(** * The listing of sales *)

(** Every stored sale is listed, as [findByPk] gives it up to the order of
    its products. *)
Lemma Venda_findAll_elem ordem db id x :
  Vendas db !! id = Some x →
  ∃ v, Venda_findByPk id db = Some v ∧ reordenada ordem db v ∈ Venda_findAll ordem db.
Proof.
  intros Hx. unfold Venda_findAll.
  assert (Hv : is_Some (Venda_findByPk id db))
    by (unfold Venda_findByPk; rewrite Hx; by eexists).
  destruct Hv as [v Hv]. exists v. split; [exact Hv|].
  apply list_elem_of_omap. exists (id, x). split; [by apply elem_of_map_to_list|].
  cbn [fst]. by rewrite Hv.
Qed.

(** [GET /vendas] lists the sales of the table and nothing else, one entry
    per stored row. *)
Lemma get_vendas_lista_todas ordem db :
  fst (get_vendas ordem db) = 200 ∧
  (∀ v, v ∈ snd (get_vendas ordem db) →
        is_Some (Vendas db !! vc_id v)) ∧
  length (snd (get_vendas ordem db)) = size (Vendas db).
Proof.
  split; [reflexivity|]. cbn [get_vendas snd]. unfold Venda_findAll. split.
  - intros v. rewrite list_elem_of_omap.
    intros ([id x] & Hin & Hv). apply elem_of_map_to_list in Hin.
    cbn [fst] in Hv. unfold Venda_findByPk in Hv. rewrite Hin in Hv.
    cbn in Hv. injection Hv as <-. cbn [reordenada vc_id]. by eexists.
  - rewrite <- length_map_to_list.
    assert (H : ∀ kv, kv ∈ map_to_list (Vendas db) →
                      is_Some (Venda_findByPk (fst kv) db)).
    { intros [id x] Hin. apply elem_of_map_to_list in Hin.
      unfold Venda_findByPk. cbn [fst]. rewrite Hin. by eexists. }
    induction (map_to_list (Vendas db)) as [|kv l IH]; [reflexivity|].
    cbn [omap list_omap]. destruct (H kv) as [v ->]; [left|].
    cbn [fmap option_fmap option_map length]. f_equal. apply IH.
    intros kv' Hin. apply H. by right.
Qed.

(** X9: the sale that an answer 201 carries, for a request with stocks and
    quantities within 2^53, is listed by [GET /vendas] on the database that
    the call leaves: the listing has a sale with the same id, customer id,
    total and customer, and with the same products, each with its quantity
    and unit price, in an order that may differ from the order of the
    answer. *)
Theorem venda_aceita_listada ordem req db res db' :
  (∀ d id l, ordem d id l ≡ₚ l) →
  exato db (default [] (itens req)) →
  app_post_vendas req db = (res, db') →
  status res = 201 →
  ∃ v v', body res = JsonVenda (Some v) ∧
          v' ∈ snd (get_vendas ordem db') ∧
          vc_id v' = vc_id v ∧ vc_ClienteId v' = vc_ClienteId v ∧
          vc_total v' = vc_total v ∧ vc_Cliente v' = vc_Cliente v ∧
          vc_Produtos v' ≡ₚ vc_Produtos v.
Proof.
  intros Hperm _ H Hst. apply app_post_vendas_201 in H as [_ H]; [|exact Hst].
  apply post_vendas_aceita in H as (its & rows & _ & _ & -> & _ & _ & Hv & _);
    [|exact Hst].
  destruct (Venda_findAll_elem ordem db' (proxima_venda db) _
              ltac:(rewrite Hv; apply lookup_insert_eq)) as (v & Hf & Hin).
  exists v, (reordenada ordem db' v). cbn [body]. rewrite Hf.
  split; [reflexivity|]. split; [exact Hin|]. cbn [reordenada vc_id vc_ClienteId
    vc_total vc_Cliente vc_Produtos]. repeat (split; [reflexivity|]). apply Hperm.
Qed.

Lemma venda_aceita_listada_witness :
  (∀ (d : DB) (id : Z) (l : list ProdutoDaVenda), reverse l ≡ₚ l) ∧
  exato db0 [mkItem 1 2; mkItem 2 1] ∧
  status (fst (app_post_vendas pedido_P1_P2 db0)) = 201 ∧
  ∃ v v', body (fst (app_post_vendas pedido_P1_P2 db0)) = JsonVenda (Some v) ∧
          v' ∈ snd (get_vendas (fun _ _ l => reverse l)
                               (snd (app_post_vendas pedido_P1_P2 db0))) ∧
          vc_id v' = vc_id v ∧ vc_ClienteId v' = vc_ClienteId v ∧
          vc_total v' = vc_total v ∧ vc_Cliente v' = vc_Cliente v ∧
          vc_Produtos v' ≡ₚ vc_Produtos v.
Proof.
  assert (Hperm : ∀ (d : DB) (id : Z) (l : list ProdutoDaVenda), reverse l ≡ₚ l)
    by (intros _ _ l; apply reverse_Permutation).
  assert (Hex : exato db0 [mkItem 1 2; mkItem 2 1])
    by (apply (bool_decide_unpack (exato db0 [mkItem 1 2; mkItem 2 1]));
        vm_compute; exact I).
  split; [exact Hperm|]. split; [exact Hex|]. split; [reflexivity|].
  apply (venda_aceita_listada (fun _ _ l => reverse l) pedido_P1_P2 db0 _ _ Hperm Hex);
    [vm_compute; reflexivity|reflexivity].
Defined.

(** X10: a request with stocks and quantities within 2^53, whose customer
    id, if it has one, is the id of a customer, and that is not answered 201, for an unknown product, for lack
    of stock or for a body without items, is listed by [GET /vendas] all the
    same: the listing of the database that the call leaves has a sale with
    the new id, the customer id of the request and total 0. A request with
    a customer id that no customer has adds nothing to the listing. *)
Theorem venda_recusada_listada ordem req db :
  exato db (default [] (itens req)) →
  (fk_ClienteId (ClienteId req) db = true →
   status (fst (app_post_vendas req db)) ≠ 201 →
   ∃ v, v ∈ snd (get_vendas ordem (snd (app_post_vendas req db))) ∧
        vc_id v = proxima_venda db ∧
        vc_ClienteId v = ClienteId req ∧
        vc_total v = 0%float) ∧
  (∀ c, ClienteId req = Some c → Clientes db !! c = None →
        get_vendas ordem (snd (app_post_vendas req db)) = get_vendas ordem db).
Proof.
  intros _. split.
  - intros Hfk. rewrite (app_post_vendas_aceito _ _ Hfk). intros Hst.
    destruct (post_vendas_geral req db) as (pre & rows & t & _ & _ & Ht & _ & _ & Hv & _).
    rewrite (Ht Hst) in Hv.
    destruct (Venda_findAll_elem ordem (snd (post_vendas req db)) (proxima_venda db) _
                ltac:(rewrite Hv; apply lookup_insert_eq)) as (v & Hf & Hin).
    exists (reordenada ordem (snd (post_vendas req db)) v). split; [exact Hin|].
    unfold Venda_findByPk in Hf. rewrite Hv, lookup_insert_eq in Hf.
    injection Hf as <-. auto.
  - intros c Hc Hnone.
    assert (Hfk : fk_ClienteId (ClienteId req) db = false)
      by (apply fk_ClienteId_false; eauto).
    by rewrite (app_post_vendas_recusado _ _ Hfk).
Qed.

Lemma venda_recusada_listada_witness :
  exato db0 [mkItem 2 3] ∧ exato db0 [mkItem 1 1] ∧
  status (fst (app_post_vendas (pedido_de 2 3) db0)) ≠ 201 ∧
  (∃ v, v ∈ snd (get_vendas (fun _ _ l => l) (snd (app_post_vendas (pedido_de 2 3) db0))) ∧
        vc_id v = 1 ∧ vc_ClienteId v = Some 1 ∧ vc_total v = 0%float) ∧
  get_vendas (fun _ _ l => l)
             (snd (app_post_vendas (mkRequest (Some 9) (Some [mkItem 1 1])) db0)) =
    get_vendas (fun _ _ l => l) db0.
Proof.
  assert (Hst : status (fst (app_post_vendas (pedido_de 2 3) db0)) ≠ 201)
    by (vm_compute; discriminate).
  assert (Hex2 : exato db0 [mkItem 2 3])
    by (apply (bool_decide_unpack (exato db0 [mkItem 2 3])); vm_compute; exact I).
  assert (Hex1 : exato db0 [mkItem 1 1])
    by (apply (bool_decide_unpack (exato db0 [mkItem 1 1])); vm_compute; exact I).
  split; [exact Hex2|]. split; [exact Hex1|]. split; [exact Hst|]. split.
  - exact (proj1 (venda_recusada_listada (fun _ _ l => l) (pedido_de 2 3) db0 Hex2)
                 eq_refl Hst).
  - exact (proj2 (venda_recusada_listada (fun _ _ l => l)
                    (mkRequest (Some 9) (Some [mkItem 1 1])) db0 Hex1)
                 9 eq_refl eq_refl).
Defined.

(** * The routes of products and customers *)

Lemma post_produtos_201 b s id p s' :
  post_produtos b s = ((201, JsonCriado id p), s') →
  body_nome b = Some (nome p) ∧ body_preco b = Some (preco p) ∧
  descricao p = body_descricao b ∧ estoque p = default 0 (body_estoque b) ∧
  id = Produtos_seq s + 1 ∧
  Clientes (banco s') = Clientes (banco s) ∧
  Produtos (banco s') = <[id := p]> (Produtos (banco s)) ∧
  Vendas (banco s') = Vendas (banco s) ∧
  ItemVendas (banco s') = ItemVendas (banco s) ∧
  Vendas_seq (banco s') = Vendas_seq (banco s) ∧
  Produtos_seq s' = id ∧ Clientes_seq s' = Clientes_seq s.
Proof.
  unfold post_produtos, Produto_create.
  destruct (body_nome b) as [n|], (body_preco b) as [pr|]; try discriminate.
  intros [= <- <- <-]. cbn. repeat split; reflexivity.
Qed.

Lemma post_produtos_400 b s :
  fst (fst (post_produtos b s)) ≠ 201 →
  snd (post_produtos b s) = s ∧ (body_nome b = None ∨ body_preco b = None).
Proof.
  unfold post_produtos, Produto_create.
  destruct (body_nome b) as [n|], (body_preco b) as [pr|]; cbn; auto.
  intros H. by destruct H.
Qed.

Lemma post_clientes_201 b s id c s' :
  post_clientes b s = ((201, JsonCriado id c), s') →
  body_cliente_nome b = Some (cliente_nome c) ∧ body_email b = Some (email c) ∧
  body_cpf b = Some (cpf c) ∧
  ¬ email_em_uso (email c) (banco s) ∧
  id = Clientes_seq s + 1 ∧
  Clientes (banco s') = <[id := c]> (Clientes (banco s)) ∧
  Produtos (banco s') = Produtos (banco s) ∧
  Vendas (banco s') = Vendas (banco s) ∧
  ItemVendas (banco s') = ItemVendas (banco s) ∧
  Vendas_seq (banco s') = Vendas_seq (banco s) ∧
  Produtos_seq s' = Produtos_seq s ∧ Clientes_seq s' = id.
Proof.
  unfold post_clientes, Cliente_create.
  destruct (body_cliente_nome b) as [n|], (body_email b) as [e|], (body_cpf b) as [cp|];
    try discriminate.
  destruct (decide (email_em_uso e (banco s))) as [|Hfree]; [discriminate|].
  intros [= <- <- <-]. cbn. repeat split; try reflexivity. exact Hfree.
Qed.

Lemma post_clientes_400 b s :
  fst (fst (post_clientes b s)) ≠ 201 → snd (post_clientes b s) = s.
Proof.
  unfold post_clientes, Cliente_create.
  destruct (body_cliente_nome b) as [n|], (body_email b) as [e|], (body_cpf b) as [cp|];
    cbn; auto.
  destruct (decide (email_em_uso e (banco s))); cbn; auto.
  intros H. by destruct H.
Qed.

Lemma post_produtos_casos b s :
  (∃ id p, post_produtos b s = ((201, JsonCriado id p), snd (post_produtos b s))) ∨
  (fst (fst (post_produtos b s)) = 400 ∧ snd (post_produtos b s) = s).
Proof.
  unfold post_produtos, Produto_create.
  destruct (body_nome b) as [n|], (body_preco b) as [pr|]; cbn; eauto.
Qed.

Lemma post_clientes_casos b s :
  (∃ id c, post_clientes b s = ((201, JsonCriado id c), snd (post_clientes b s))) ∨
  (fst (fst (post_clientes b s)) = 400 ∧ snd (post_clientes b s) = s).
Proof.
  unfold post_clientes, Cliente_create.
  destruct (body_cliente_nome b) as [n|], (body_email b) as [e|], (body_cpf b) as [cp|];
    cbn; eauto.
  destruct (decide (email_em_uso e (banco s))); cbn; eauto.
Qed.

(** ** What the server keeps *)

Lemma db_ok_quadro db db' :
  Vendas db' = Vendas db → ItemVendas db' = ItemVendas db →
  Vendas_seq db' = Vendas_seq db → db_ok db' = db_ok db.
Proof. unfold db_ok. by intros -> -> ->. Qed.

Lemma passo_servidor_ok s r : servidor_ok s → servidor_ok (passo s r).
Proof.
  intros ((Hdb & Hps & Hcs) & Hem & Hrefs & Hpiv). destruct r as [b|b|req]; cbn [passo].
  - destruct (post_produtos_casos b s) as [(id & p & H)|[_ ->]];
      [|unfold servidor_ok, seqs_ok; tauto].
    apply post_produtos_201 in H
      as (_ & _ & _ & _ & Hid & Hc & Hp & Hv & Hiv & Hvs & Hps' & Hcs').
    set (s' := snd (post_produtos b s)) in *.
    split; [split; [|split]|split; [|split]].
    + rewrite <- Hdb. by apply db_ok_quadro.
    + intros k. rewrite Hp, Hps', lookup_insert_is_Some. intros [->|[_ Hk]]; [lia|].
      apply Hps in Hk. lia.
    + intros k. rewrite Hc, Hcs'. apply Hcs.
    + unfold emails_ok. rewrite Hc. exact Hem.
    + intros r. rewrite Hiv. intros Hin. destruct (Hrefs r Hin) as [Hr1 Hr2].
      rewrite Hv, Hp. split; [exact Hr1|]. apply lookup_insert_is_Some.
      destruct (decide (id = ProdutoId r)); auto.
    + unfold pivo_ok. rewrite Hiv. exact Hpiv.
  - destruct (post_clientes_casos b s) as [(id & c & H)|[_ ->]];
      [|unfold servidor_ok, seqs_ok; tauto].
    apply post_clientes_201 in H
      as (_ & _ & _ & Hfree & Hid & Hc & Hp & Hv & Hiv & Hvs & Hps' & Hcs').
    set (s' := snd (post_clientes b s)) in *.
    assert (Hnovo : Clientes (banco s) !! id = None).
    { destruct (Clientes (banco s) !! id) as [x|] eqn:E; [|reflexivity].
      pose proof (Hcs id (mk_is_Some _ _ E)). lia. }
    split; [split; [|split]|split; [|split]].
    + rewrite <- Hdb. by apply db_ok_quadro.
    + intros k. rewrite Hp, Hps'. apply Hps.
    + intros k. rewrite Hc, Hcs', lookup_insert_is_Some. intros [->|[_ Hk]]; [lia|].
      apply Hcs in Hk. lia.
    + intros i j ci cj. rewrite Hc, !lookup_insert.
      destruct (decide (id = i)) as [Hi|Hi], (decide (id = j)) as [Hj|Hj];
        try congruence; try subst i; try subst j.
      * intros [= <-] Hcj Heq. exfalso. apply Hfree.
        eapply map_Exists_lookup_2; [exact Hcj|]. by symmetry.
      * intros Hci [= <-] Heq. exfalso. apply Hfree.
        eapply map_Exists_lookup_2; [exact Hci|]. exact Heq.
      * apply Hem.
    + intros r. rewrite Hiv, Hv, Hp. apply Hrefs.
    + unfold pivo_ok. rewrite Hiv. exact Hpiv.
  - destruct (post_vendas_geral req (banco s)) as (pre & rows & t & _ & _ & _ & _ & Hc & _).
    destruct (post_vendas_Produtos req (banco s)) as (pre' & _ & _ & Hp).
    split; [split; [|split]|split; [|split]]; cbn [banco Produtos_seq Clientes_seq].
    + by apply post_vendas_db_ok.
    + intros k [p Hk]. rewrite Hp in Hk. apply Hps.
      destruct (Produtos (banco s) !! k); [by eexists|discriminate].
    + intros k. rewrite Hc. apply Hcs.
    + unfold emails_ok. rewrite Hc. exact Hem.
    + by apply post_vendas_refs_ok.
    + by apply post_vendas_pivo_ok.
Qed.

Lemma servidor_novo_ok : servidor_ok servidor_novo.
Proof.
  split; [split; [|split]|split; [|split]].
  - reflexivity.
  - intros k [x Hx]. destruct (lookup_empty_Some (M := gmap Z) _ _ Hx).
  - intros k [x Hx]. destruct (lookup_empty_Some (M := gmap Z) _ _ Hx).
  - intros i j ci cj Hi. destruct (lookup_empty_Some (M := gmap Z) _ _ Hi).
  - intros r Hin. by apply elem_of_nil in Hin.
  - constructor.
Qed.

(** X11: the server keeps, whatever the requests that arrive, in any order,
    on the three [POST] routes: no id beyond the counter of its table, no
    two customers with the same email, every row of the pivot table
    referring to a sale and to a product that exist, and no two rows of the
    pivot table for the same pair. These hold on a new database, and after
    any list of requests if they held before it. *)
Theorem servidor_ok_sempre (rs : list Pedido) :
  servidor_ok (foldl passo servidor_novo rs) ∧
  ∀ s, servidor_ok s → servidor_ok (foldl passo s rs).
Proof.
  assert (H : ∀ s, servidor_ok s → servidor_ok (foldl passo s rs)).
  { induction rs as [|r rs IH]; intros s Hs; [exact Hs|].
    cbn [foldl]. apply IH. by apply passo_servidor_ok. }
  split; [|exact H]. apply H. exact servidor_novo_ok.
Qed.

Lemma servidor_ok_sempre_witness :
  servidor_ok servidor_novo ∧
  servidor_ok
    (foldl passo servidor_novo
       [POST_produtos (mkProdutoBody (Some "P1") None (Some 10%float) (Some 5));
        POST_clientes (mkClienteBody (Some "C1") (Some "c1@dncommerce") (Some "000"));
        POST_vendas pedido_P1_P1]).
Proof.
  split; [exact servidor_novo_ok|].
  apply (proj2 (servidor_ok_sempre _)). exact servidor_novo_ok.
Defined.

(** ** Creating and listing *)

Lemma seqs_ok_novo_cliente s :
  seqs_ok s → Clientes (banco s) !! (Clientes_seq s + 1) = None.
Proof.
  intros (_ & _ & Hcs).
  destruct (Clientes (banco s) !! (Clientes_seq s + 1)) as [x|] eqn:E; [|reflexivity].
  pose proof (Hcs _ (mk_is_Some _ _ E)). lia.
Qed.

Lemma seqs_ok_novo_produto s :
  seqs_ok s → Produtos (banco s) !! (Produtos_seq s + 1) = None.
Proof.
  intros (_ & Hps & _).
  destruct (Produtos (banco s) !! (Produtos_seq s + 1)) as [x|] eqn:E; [|reflexivity].
  pose proof (Hps _ (mk_is_Some _ _ E)). lia.
Qed.

Lemma elem_of_map_to_list_insert {A} (m : gmap Z A) i x kv :
  m !! i = None →
  kv ∈ map_to_list (<[i := x]> m) ↔ kv = (i, x) ∨ kv ∈ map_to_list m.
Proof.
  intros Hnone. destruct kv as [k v].
  rewrite !elem_of_map_to_list, lookup_insert_Some. split.
  - intros [[-> ->]|[_ H]]; auto.
  - intros [[= -> ->]|H]; [auto|]. right. split; [congruence|exact H].
Qed.

(** X12: a customer created by [POST /clientes] gets an id that no customer
    had; [GET /clientes] then lists this customer under this id together
    with exactly the customers listed before, unchanged; and a second
    [POST /clientes] with the same email, whatever its other fields, is
    answered 400 and changes nothing. *)
Theorem post_clientes_get_clientes b s id c s' :
  seqs_ok s →
  post_clientes b s = ((201, JsonCriado id c), s') →
  Clientes (banco s) !! id = None ∧
  (∀ x, x ∈ snd (get_clientes s') ↔ x = (id, c) ∨ x ∈ snd (get_clientes s)) ∧
  (∀ b2, body_email b2 = Some (email c) →
         fst (fst (post_clientes b2 s')) = 400 ∧ snd (post_clientes b2 s') = s').
Proof.
  intros Hok H.
  apply post_clientes_201 in H as (_ & _ & _ & _ & -> & Hc & _).
  pose proof (seqs_ok_novo_cliente s Hok) as Hnone.
  split; [exact Hnone|]. split.
  - intros x. cbn [get_clientes snd]. rewrite Hc. by apply elem_of_map_to_list_insert.
  - intros b2 He.
    assert (Huso : email_em_uso (email c) (banco s')).
    { unfold email_em_uso. rewrite Hc.
      apply (map_Exists_lookup_2 _ _ (Clientes_seq s + 1) c); [|reflexivity].
      apply lookup_insert_eq. }
    unfold post_clientes, Cliente_create. rewrite He.
    destruct (body_cliente_nome b2), (body_cpf b2); cbn; auto.
    destruct (decide (email_em_uso (email c) (banco s'))); [cbn; auto|contradiction].
Qed.

Lemma post_clientes_get_clientes_witness :
  seqs_ok servidor_novo ∧
  Clientes (banco servidor_novo) !! 1 = None ∧
  ∀ b2, body_email b2 = Some "c1@dncommerce" →
        fst (fst (post_clientes b2
                    (snd (post_clientes
                            (mkClienteBody (Some "C1") (Some "c1@dncommerce") (Some "000"))
                            servidor_novo)))) = 400.
Proof.
  pose proof (proj1 servidor_novo_ok) as Hok.
  split; [exact Hok|].
  destruct (post_clientes_get_clientes
              (mkClienteBody (Some "C1") (Some "c1@dncommerce") (Some "000"))
              servidor_novo 1 cliente1
              (snd (post_clientes
                      (mkClienteBody (Some "C1") (Some "c1@dncommerce") (Some "000"))
                      servidor_novo)) Hok)
    as (H1 & _ & H3); [vm_compute; reflexivity|].
  split; [exact H1|]. intros b2 Hb2. exact (proj1 (H3 b2 Hb2)).
Defined.

(** X13: a product created by [POST /produtos] gets an id that no product
    had, with the name, description and price of the body and the stock of
    the body, or 0 when the body has none; [GET /produtos] then lists it
    under this id together with exactly the products listed before,
    unchanged; and the creation touches no customer, sale or line item. *)
Theorem post_produtos_get_produtos b s id p s' :
  seqs_ok s →
  post_produtos b s = ((201, JsonCriado id p), s') →
  Produtos (banco s) !! id = None ∧
  p = mkProduto (default "" (body_nome b)) (body_descricao b)
                (default 0%float (body_preco b)) (default 0 (body_estoque b)) ∧
  is_Some (body_nome b) ∧ is_Some (body_preco b) ∧
  (∀ x, x ∈ snd (get_produtos s') ↔ x = (id, p) ∨ x ∈ snd (get_produtos s)) ∧
  Clientes (banco s') = Clientes (banco s) ∧
  Vendas (banco s') = Vendas (banco s) ∧
  ItemVendas (banco s') = ItemVendas (banco s).
Proof.
  intros Hok H.
  apply post_produtos_201 in H as (Hn & Hpr & Hd & He & -> & Hc & Hp & Hv & Hiv & _).
  pose proof (seqs_ok_novo_produto s Hok) as Hnone.
  split; [exact Hnone|]. split.
  { rewrite Hn, Hpr, <- Hd, <- He. by destruct p. }
  split; [by rewrite Hn|]. split; [by rewrite Hpr|].
  split; [|auto].
  intros x. cbn [get_produtos snd]. rewrite Hp. by apply elem_of_map_to_list_insert.
Qed.

Lemma post_produtos_get_produtos_witness :
  seqs_ok servidor_novo ∧
  Produtos (banco servidor_novo) !! 1 = None ∧
  ∀ x, x ∈ snd (get_produtos
                  (snd (post_produtos
                          (mkProdutoBody (Some "P1") None (Some 10%float) None)
                          servidor_novo))) ↔
       x = (1, mkProduto "P1" None 10%float 0) ∨ x ∈ snd (get_produtos servidor_novo).
Proof.
  pose proof (proj1 servidor_novo_ok) as Hok.
  split; [exact Hok|].
  destruct (post_produtos_get_produtos
              (mkProdutoBody (Some "P1") None (Some 10%float) None)
              servidor_novo 1 (mkProduto "P1" None 10%float 0)
              (snd (post_produtos (mkProdutoBody (Some "P1") None (Some 10%float) None)
                      servidor_novo)) Hok)
    as (H1 & _ & _ & _ & H5 & _); [vm_compute; reflexivity|].
  split; [exact H1|exact H5].
Defined.

(** ** From the creation of a product to its sale *)

(** X14: a product created by [POST /produtos] can be sold up to the stock
    of its body: on the database left by the creation, the request for [q]
    units of the new product alone, with a customer id that, if given, is
    the id of a customer, and with stock and quantity within 2^53, is
    answered 201 exactly when [q] is at most that stock, and otherwise 400
    with the name of the product. The stock of a body without [estoque] is
    0, so such a product is refused in any positive quantity. *)
Theorem produto_criado_vende_ate_o_estoque b s id p s' cid q :
  post_produtos b s = ((201, JsonCriado id p), s') →
  fk_ClienteId cid (banco s') = true →
  exato (banco s') [mkItem id q] →
  let res := fst (app_post_vendas (mkRequest cid (Some [mkItem id q])) (banco s')) in
  (status res = 201 ↔ q ≤ default 0 (body_estoque b)) ∧
  (default 0 (body_estoque b) < q →
   res = mkResponse 400 (JsonError (String.append "Estoque insuficiente para " (nome p)))) ∧
  (body_estoque b = None → 0 < q → status res = 400).
Proof.
  intros H Hfk _ res. subst res.
  rewrite (app_post_vendas_aceito (mkRequest cid (Some [mkItem id q])) (banco s') Hfk).
  apply post_produtos_201 in H as (_ & _ & _ & He & _ & _ & Hp & _).
  assert (Hk : Produtos (banco s') !! id = Some p) by (rewrite Hp; apply lookup_insert_eq).
  assert (Hcasos :
    (q ≤ estoque p ∧
     status (fst (post_vendas (mkRequest cid (Some [mkItem id q])) (banco s'))) = 201) ∨
    (estoque p < q ∧
     fst (post_vendas (mkRequest cid (Some [mkItem id q])) (banco s')) =
     mkResponse 400 (JsonError (msg_estoque p)))).
  { set (req := mkRequest cid (Some [mkItem id q])).
    set (db1 := snd (Venda_create (ClienteId req) (banco s'))).
    assert (Hk1 : Produtos db1 !! id = Some p) by exact Hk.
    destruct (Z.ltb_spec (estoque p) q) as [Hlt|Hle]; [right|left]; split; try assumption.
    - assert (Hr : recusa (mkItem id q) db1 =
                   Some (mkResponse 400 (JsonError (msg_estoque p)))).
      { unfold recusa, Produto_findByPk. cbn [item_ProdutoId item_quantidade].
        rewrite Hk1. destruct (Z.ltb_spec (estoque p) q); [reflexivity|lia]. }
      by rewrite (post_vendas_recusa req (banco s') [] (mkItem id q) [] 0%float db1 _
                    eq_refl eq_refl Hr).
    - assert (Hr : recusa (mkItem id q) db1 = None).
      { unfold recusa, Produto_findByPk. cbn [item_ProdutoId item_quantidade].
        rewrite Hk1. destruct (Z.ltb_spec (estoque p) q); [lia|reflexivity]. }
      destruct (for_itens_passa (proxima_venda (banco s')) (mkItem id q) [] 0%float db1 Hr)
        as (p' & _ & _ & Hl).
      cbn [for_itens] in Hl.
      by rewrite (post_vendas_Completed req (banco s') _ _ _ eq_refl Hl). }
  rewrite <- He. split; [|split].
  - destruct Hcasos as [[Hle Hst]|[Hlt Hr]]; [tauto|].
    rewrite Hr. cbn [status]. split; [discriminate|lia].
  - intros Hlt. destruct Hcasos as [[Hle _]|[_ Hr]]; [lia|exact Hr].
  - intros Hnone Hq. rewrite Hnone in He. cbn in He.
    destruct Hcasos as [[Hle _]|[_ Hr]]; [lia|by rewrite Hr].
Qed.

Lemma produto_criado_vende_ate_o_estoque_witness :
  exato (banco (snd (post_produtos
                       (mkProdutoBody (Some "P1") None (Some 10%float) None)
                       servidor_novo))) [mkItem 1 1] ∧
  status
    (fst (app_post_vendas (mkRequest None (Some [mkItem 1 1]))
            (banco (snd (post_produtos
                           (mkProdutoBody (Some "P1") None (Some 10%float) None)
                           servidor_novo))))) = 400.
Proof.
  assert (Hex : exato (banco (snd (post_produtos
                         (mkProdutoBody (Some "P1") None (Some 10%float) None)
                         servidor_novo))) [mkItem 1 1])
    by (apply (bool_decide_unpack (exato _ [mkItem 1 1])); vm_compute; exact I).
  split; [exact Hex|].
  destruct (produto_criado_vende_ate_o_estoque
              (mkProdutoBody (Some "P1") None (Some 10%float) None) servidor_novo
              1 (mkProduto "P1" None 10%float 0)
              (snd (post_produtos (mkProdutoBody (Some "P1") None (Some 10%float) None)
                      servidor_novo))
              None 1) as (_ & _ & H); [vm_compute; reflexivity|reflexivity|exact Hex|].
  apply H; [reflexivity|lia].
Defined.

(** X15: [POST /produtos] does not check the sign of the stock. On a server
    whose counters are sound, the products after a creation are without
    negative stock exactly when they were so before and the stock of the
    body, or 0 when the body has none, is not negative. *)
Theorem post_produtos_estoque_ok b s id p s' :
  seqs_ok s →
  post_produtos b s = ((201, JsonCriado id p), s') →
  (estoque_ok (banco s') ↔ estoque_ok (banco s) ∧ 0 ≤ default 0 (body_estoque b)).
Proof.
  intros Hok H.
  apply post_produtos_201 in H as (_ & _ & _ & He & -> & _ & Hp & _).
  pose proof (seqs_ok_novo_produto s Hok) as Hnone.
  unfold estoque_ok. rewrite Hp, map_Forall_insert by exact Hnone.
  rewrite He. tauto.
Qed.

Lemma post_produtos_estoque_ok_witness :
  seqs_ok servidor_novo ∧
  ¬ estoque_ok
      (banco (snd (post_produtos
                     (mkProdutoBody (Some "P1") None (Some 10%float) (Some (-5)))
                     servidor_novo))).
Proof.
  pose proof (proj1 servidor_novo_ok) as Hok.
  split; [exact Hok|].
  intros Hneg.
  apply (post_produtos_estoque_ok
           (mkProdutoBody (Some "P1") None (Some 10%float) (Some (-5)))
           servidor_novo 1 (mkProduto "P1" None 10%float (-5)) _ Hok) in Hneg;
    [|vm_compute; reflexivity].
  destruct Hneg as [_ Hneg]. cbn in Hneg. lia.
Defined.
